(** * ChatInterface: session provisioning and message exchange

    A shallow embedding of [src/components/ChatInterface.tsx]: the React
    component state becomes a record, the event handlers become programs
    of a small state/exception/trace monad, and the remote Sensay service
    becomes a record of response functions the theorems quantify over. *)

From Stdlib Require Import String Ascii List ZArith Lia Bool DecimalString.
Import ListNotations.
Local Open Scope string_scope.
Local Open Scope list_scope.
Set Warnings "-register-all".

(** String concatenation, JavaScript's [+] on strings and the joints of a
    template literal; [++] is kept for lists. *)
Infix "^^" := String.append (at level 60, right associativity).

(** ** JavaScript values and the built-ins the component relies on

    Strings are [String.string], one [ascii] per code unit (the code units
    0..255).  Numbers are the integers of magnitude below 10^21, which is
    what an HTTP status is; [NaN], infinities and fractions are outside the
    model, and so are the integers from 10^21 on, which JavaScript prints in
    exponent form and [number_to_string] would print digit by digit. *)
Module Js.

Inductive value : Type :=
| Undefined
| Null
| Bool (b : bool)
| Num (n : Z)
| Str (s : string)
| Obj (fields : list (string * value))
| Arr (elems : list value).

(** ToBoolean: what [if (v)], [!v] and [v && ...] test. *)
Definition truthy (v : value) : bool :=
  match v with
  | Undefined | Null => false
  | Bool b => b
  | Num n => negb (n =? 0)%Z
  | Str s => negb (s =? "")
  | Obj _ | Arr _ => true
  end.

(** ToBoolean on a value statically known to be a string. *)
Definition truthy_str (s : string) : bool := negb (s =? "").

Fixpoint lookup (k : string) (fields : list (string * value)) : value :=
  match fields with
  | [] => Undefined
  | (k', v) :: rest => if k' =? k then v else lookup k rest
  end.

(** [v.k] for one of the names the component reads ([error], [message],
    [response], [data], [status]): none of them is inherited, so only an
    object's own fields can answer.  The receiver is never nullish where
    the source uses a plain dot. *)
Definition get (v : value) (k : string) : value :=
  match v with
  | Obj fields => lookup k fields
  | _ => Undefined
  end.

(** [v?.k] *)
Definition get_opt (v : value) (k : string) : value :=
  match v with
  | Undefined | Null => Undefined
  | _ => get v k
  end.

(** [typeof v === 'string'] *)
Definition is_string (v : value) : bool :=
  match v with Str _ => true | _ => false end.

(** [typeof v === 'object' && v !== null] *)
Definition is_object (v : value) : bool :=
  match v with Obj _ | Arr _ => true | _ => false end.

Definition number_to_string (n : Z) : string :=
  NilZero.string_of_int (Z.to_int n).

Fixpoint join (sep : string) (l : list string) : string :=
  match l with
  | [] => ""
  | [s] => s
  | s :: rest => s ^^ sep ^^ join sep rest
  end.

(** ToString, as a template literal applies it. *)
Fixpoint to_string (v : value) : string :=
  match v with
  | Undefined => "undefined"
  | Null => "null"
  | Bool true => "true"
  | Bool false => "false"
  | Num n => number_to_string n
  | Str s => s
  | Obj _ => "[object Object]"
  | Arr elems =>
      join "," (map (fun e => match e with
                              | Undefined | Null => ""
                              | _ => to_string e
                              end) elems)
  end.

Definition hex_digit (n : nat) : ascii :=
  match n with
  | 0 => "0" | 1 => "1" | 2 => "2" | 3 => "3" | 4 => "4" | 5 => "5"
  | 6 => "6" | 7 => "7" | 8 => "8" | 9 => "9" | 10 => "a" | 11 => "b"
  | 12 => "c" | 13 => "d" | 14 => "e" | _ => "f"
  end%char.

Definition dquote : ascii := ascii_of_nat 34.
Definition backslash : ascii := ascii_of_nat 92.

(** QuoteJSONString on one code unit. *)
Definition quote_char (c : ascii) : string :=
  let n := nat_of_ascii c in
  if Nat.eqb n 34 then String backslash (String dquote "")
  else if Nat.eqb n 92 then String backslash (String backslash "")
  else if Nat.eqb n 8 then "\b"
  else if Nat.eqb n 9 then "\t"
  else if Nat.eqb n 10 then "\n"
  else if Nat.eqb n 12 then "\f"
  else if Nat.eqb n 13 then "\r"
  else if Nat.ltb n 32 then
    "\u00" ^^ String (hex_digit (n / 16)) (String (hex_digit (n mod 16)) "")
  else String c "".

Fixpoint quote_body (s : string) : string :=
  match s with
  | EmptyString => ""
  | String c rest => quote_char c ^^ quote_body rest
  end.

Definition quote (s : string) : string :=
  String dquote (quote_body s) ^^ String dquote "".

(** [JSON.stringify v] without indentation.  A field whose value is
    [undefined] is left out of an object and printed [null] in an array.
    The component only stringifies truthy values, so the [undefined]
    result at top level is never observed; it is printed as the text
    [undefined] here to keep the function total. *)
Fixpoint stringify (v : value) : string :=
  match v with
  | Undefined => "undefined"
  | Null => "null"
  | Bool true => "true"
  | Bool false => "false"
  | Num n => number_to_string n
  | Str s => quote s
  | Obj fields =>
      "{" ^^ join ","
               (flat_map (fun kv => match kv with
                                    | (_, Undefined) => []
                                    | (k, x) => [quote k ^^ ":" ^^ stringify x]
                                    end) fields) ^^ "}"
  | Arr elems =>
      "[" ^^ join ","
               (map (fun e => match e with
                              | Undefined => "null"
                              | _ => stringify e
                              end) elems) ^^ "]"
  end.

(** White space and line terminators among the code units 0..255:
    TAB, LF, VT, FF, CR, SP and NBSP. *)
Definition is_whitespace (c : ascii) : bool :=
  let n := nat_of_ascii c in
  (Nat.leb 9 n && Nat.leb n 13) || Nat.eqb n 32 || Nat.eqb n 160.

Fixpoint trimStart (s : string) : string :=
  match s with
  | EmptyString => ""
  | String c rest => if is_whitespace c then trimStart rest else s
  end.

Fixpoint trimEnd (s : string) : string :=
  match s with
  | EmptyString => ""
  | String c rest =>
      match trimEnd rest with
      | EmptyString => if is_whitespace c then "" else String c ""
      | kept => String c kept
      end
  end.

(** [s.trim()] *)
Definition trim (s : string) : string := trimEnd (trimStart s).

Fixpoint all_whitespace (s : string) : bool :=
  match s with
  | EmptyString => true
  | String c rest => is_whitespace c && all_whitespace rest
  end.


(** [l.slice(start, stop)], negative positions counting from the end. *)
Definition slice {A : Type} (l : list A) (start stop : Z) : list A :=
  let len := Z.of_nat (length l) in
  let k := if (start <? 0)%Z then Z.max (len + start) 0 else Z.min start len in
  let final := if (stop <? 0)%Z then Z.max (len + stop) 0 else Z.min stop len in
  firstn (Z.to_nat (final - k)) (skipn (Z.to_nat k) l).

(** [l[l.length - 1] = v] on a fresh copy of [l].  On the empty array the
    index is [-1], which names a property and adds no element. *)
Definition set_last {A : Type} (l : list A) (v : A) : list A :=
  match l with
  | [] => []
  | _ => removelast l ++ [v]
  end.

(** The line feed, the separator of [content.split('\n')]. *)
Definition newline : ascii := ascii_of_nat 10.

(** [s.split(sep)] for a separator of one code unit: the pieces between
    the separators, the empty string included. *)
Fixpoint split (s : string) (sep : ascii) : list string :=
  match s with
  | EmptyString => [""]
  | String c rest =>
      if Ascii.eqb c sep then "" :: split rest sep
      else match split rest sep with
           | piece :: pieces => String c piece :: pieces
           | [] => [String c ""]
           end
  end.

(** The number of occurrences of a code unit. *)
Fixpoint occurrences (c : ascii) (s : string) : nat :=
  match s with
  | EmptyString => 0
  | String x rest => (if Ascii.eqb x c then 1 else 0) + occurrences c rest
  end.

End Js.

(** ** Data model *)

Inductive Role : Type := user | assistant | system.

Record ChatMessage : Type := {
  role : Role;
  content : string;
  name : option string
}.

(** The component's [useState] cells.  [error] is typed [string | null] in
    the source but receives whatever the thrown payload carries, so it is a
    JavaScript value here, [Js.Null] when no error is shown. *)
Record UiState : Type := {
  messages : list ChatMessage;
  inputValue : string;
  isLoading : bool;
  error : Js.value;
  localApiKey : string;
  showConfig : bool;
  replicaUuid : option string
}.

(** What a rejected promise or a [throw] carries: an [Error] instance
    ([err instanceof Error]) with its message, or any other value. *)
Inductive Thrown : Type :=
| ErrorInstance (message : string)
| Payload (v : Js.value).

Inductive Outcome (A : Type) : Type :=
| Resolved (a : A)
| Rejected (e : Thrown).
Arguments Resolved {A} a.
Arguments Rejected {A} e.

(** *** The remote service *)

Record Headers : Type := {
  X_ORGANIZATION_SECRET : string;
  X_USER_ID : option string
}.

Record UserBody : Type := {
  ub_id : string;
  ub_email : string;
  ub_name : string
}.

Record LlmConfig : Type := {
  model : string;
  memoryMode : string;
  systemMessage : string
}.

Record ReplicaBody : Type := {
  rb_name : string;
  shortDescription : string;
  greeting : string;
  rb_slug : string;
  ownerID : string;
  llm : LlmConfig
}.

Record CompletionBody : Type := {
  cb_content : string;
  source : string;
  skip_chat_history : bool
}.

Record Replica : Type := {
  slug : string;
  uuid : string
}.

Inductive Request : Type :=
| GetV1Users (h : Headers) (id : string)
| PostV1Users (h : Headers) (version : string) (body : UserBody)
| GetV1Replicas (h : Headers)
| PostV1Replicas (h : Headers) (version : string) (body : ReplicaBody)
| PostV1ReplicasChatCompletions
    (h : Headers) (replica : string) (version : string) (body : CompletionBody).

(** How the service answers each call.  [getV1Replicas] answers with the
    [items] array, or [None] when [replicas && replicas.items] is falsy.
    [postV1Replicas] answers with the new replica's [uuid] and the completion
    call with the reply's [content].  An answer is a function of the request
    alone: one run of a handler issues each call at most once, and theorems
    about two runs take a service for each. *)
Record Service : Type := {
  getV1Users : Headers -> string -> Outcome unit;
  postV1Users : Headers -> string -> UserBody -> Outcome unit;
  getV1Replicas : Headers -> Outcome (option (list Replica));
  postV1Replicas : Headers -> string -> ReplicaBody -> Outcome string;
  postV1ReplicasChatCompletions :
    Headers -> string -> string -> CompletionBody -> Outcome string
}.

Inductive ConsoleArg : Type :=
| Text (s : string)
| Flag (b : bool)
| Caught (e : Thrown).

Inductive Level : Type := log | error_level.

(** What a handler does besides updating the state: a network call, recorded
    with the state pending when it is issued, or a console line. *)
Inductive Event : Type :=
| Net (req : Request) (pending : UiState)
| Console (lvl : Level) (args : list ConsoleArg).

(** The remote service a client talks to, and a client: the service plus
    the headers it was constructed with ([new SensayAPI({HEADERS})]). *)
Record SensayAPI : Type := {
  service : Service;
  HEADERS : Headers
}.

(** ** Handlers: state, exceptions and a trace

    A handler runs from a pending state and leaves an outcome, the new
    pending state and the events it caused.  State written before a throw
    stays written, as with [useState] setters. *)
Definition Handler (A : Type) : Type :=
  UiState -> Outcome A * UiState * list Event.

Definition ret {A : Type} (a : A) : Handler A :=
  fun s => (Resolved a, s, []).

Definition bind {A B : Type} (m : Handler A) (k : A -> Handler B) : Handler B :=
  fun s =>
    match m s with
    | (Resolved a, s1, t1) =>
        match k a s1 with
        | (r, s2, t2) => (r, s2, t1 ++ t2)
        end
    | (Rejected e, s1, t1) => (Rejected e, s1, t1)
    end.

Definition throw {A : Type} (e : Thrown) : Handler A :=
  fun s => (Rejected e, s, []).

Definition try_catch {A : Type}
    (body : Handler A) (handler : Thrown -> Handler A) : Handler A :=
  fun s =>
    match body s with
    | (Resolved a, s1, t1) => (Resolved a, s1, t1)
    | (Rejected e, s1, t1) =>
        match handler e s1 with
        | (r, s2, t2) => (r, s2, t1 ++ t2)
        end
    end.

Notation "x <- m ;; k" := (bind m (fun x => k))
  (at level 61, m at next level, right associativity).
Notation "m ;; k" := (bind m (fun _ => k))
  (at level 61, right associativity).

(** [await] of a network call: the service's answer, recorded with the
    state pending at that moment. *)
Definition await {A : Type} (req : Request) (answer : Outcome A) : Handler A :=
  fun s => (answer, s, [Net req s]).

Definition console (lvl : Level) (args : list ConsoleArg) : Handler unit :=
  fun s => (Resolved tt, s, [Console lvl args]).

(** A handler reads the state through the closure of the render that
    created it; [render h] runs the handler of the render showing the
    current state. *)
Definition render {A : Type} (h : UiState -> Handler A) : Handler A :=
  fun s => h s s.

(** *** The [useState] setters

    Each cell has a pure update and the setter that applies it to the
    pending state. *)

Definition modify (f : UiState -> UiState) : Handler unit :=
  fun s => (Resolved tt, f s, []).

Definition with_messages (v : list ChatMessage) (s : UiState) : UiState :=
  {| messages := v; inputValue := inputValue s;
     isLoading := isLoading s; error := error s;
     localApiKey := localApiKey s; showConfig := showConfig s;
     replicaUuid := replicaUuid s |}.

Definition with_inputValue (v : string) (s : UiState) : UiState :=
  {| messages := messages s; inputValue := v;
     isLoading := isLoading s; error := error s;
     localApiKey := localApiKey s; showConfig := showConfig s;
     replicaUuid := replicaUuid s |}.

Definition with_isLoading (v : bool) (s : UiState) : UiState :=
  {| messages := messages s; inputValue := inputValue s;
     isLoading := v; error := error s;
     localApiKey := localApiKey s; showConfig := showConfig s;
     replicaUuid := replicaUuid s |}.

Definition with_error (v : Js.value) (s : UiState) : UiState :=
  {| messages := messages s; inputValue := inputValue s;
     isLoading := isLoading s; error := v;
     localApiKey := localApiKey s; showConfig := showConfig s;
     replicaUuid := replicaUuid s |}.

Definition with_localApiKey (v : string) (s : UiState) : UiState :=
  {| messages := messages s; inputValue := inputValue s;
     isLoading := isLoading s; error := error s;
     localApiKey := v; showConfig := showConfig s;
     replicaUuid := replicaUuid s |}.

Definition with_showConfig (v : bool) (s : UiState) : UiState :=
  {| messages := messages s; inputValue := inputValue s;
     isLoading := isLoading s; error := error s;
     localApiKey := localApiKey s; showConfig := v;
     replicaUuid := replicaUuid s |}.

Definition with_replicaUuid (v : option string) (s : UiState) : UiState :=
  {| messages := messages s; inputValue := inputValue s;
     isLoading := isLoading s; error := error s;
     localApiKey := localApiKey s; showConfig := showConfig s;
     replicaUuid := v |}.

(** [setMessages(prev => f(prev))] *)
Definition setMessages (f : list ChatMessage -> list ChatMessage) : Handler unit :=
  modify (fun s => with_messages (f (messages s)) s).

Definition setInputValue (v : string) : Handler unit := modify (with_inputValue v).
Definition setIsLoading (b : bool) : Handler unit := modify (with_isLoading b).
Definition setError (v : Js.value) : Handler unit := modify (with_error v).
Definition setLocalApiKey (v : string) : Handler unit := modify (with_localApiKey v).
Definition setShowConfig (b : bool) : Handler unit := modify (with_showConfig b).
Definition setReplicaUuid (v : option string) : Handler unit := modify (with_replicaUuid v).

(** *** The client's methods *)

Definition users_getV1Users (c : SensayAPI) (id : string) : Handler unit :=
  await (GetV1Users (HEADERS c) id) (getV1Users (service c) (HEADERS c) id).

Definition users_postV1Users
    (c : SensayAPI) (version : string) (body : UserBody) : Handler unit :=
  await (PostV1Users (HEADERS c) version body)
        (postV1Users (service c) (HEADERS c) version body).

Definition replicas_getV1Replicas (c : SensayAPI) : Handler (option (list Replica)) :=
  await (GetV1Replicas (HEADERS c)) (getV1Replicas (service c) (HEADERS c)).

Definition replicas_postV1Replicas
    (c : SensayAPI) (version : string) (body : ReplicaBody) : Handler string :=
  await (PostV1Replicas (HEADERS c) version body)
        (postV1Replicas (service c) (HEADERS c) version body).

Definition chatCompletions_postV1ReplicasChatCompletions
    (c : SensayAPI) (replica version : string) (body : CompletionBody)
  : Handler string :=
  await (PostV1ReplicasChatCompletions (HEADERS c) replica version body)
        (postV1ReplicasChatCompletions (service c) (HEADERS c) replica version body).

(** ** The component *)

Section Component.

(** The constants of [@/constants/auth], which is not among the sources. *)
Context (SAMPLE_USER_ID SAMPLE_REPLICA_SLUG API_VERSION : string).

(** [useState] initial values, for the [apiKey] prop. *)
Definition initialState (apiKey : option string) : UiState :=
  {| messages := [];
     inputValue := "";
     isLoading := false;
     error := Js.Null;
     localApiKey := match apiKey with
                    | Some k => if Js.truthy_str k then k else ""
                    | None => ""
                    end;
     showConfig := match apiKey with
                   | Some k => negb (Js.truthy_str k)
                   | None => true
                   end;
     replicaUuid := None |}.

(** The effect on [[apiKey]]: it runs after the first render and after
    every render in which the prop differs from the previous one. *)
Definition apiKeyEffect (apiKey : option string) : Handler unit :=
  match apiKey with
  | Some k =>
      console log [Text "API Key provided:"; Flag (Js.truthy_str k)] ;;
      if Js.truthy_str k then
        setLocalApiKey k ;;
        setShowConfig false
      else ret tt
  | None =>
      console log [Text "API Key provided:"; Flag false]
  end.

Definition handleInputChange (value : string) : Handler unit :=
  setInputValue value.

Definition handleApiKeyChange (value : string) : Handler unit :=
  setLocalApiKey value ;;
  setReplicaUuid None.

(** The body of the [try] in [initializeSession]. *)
Definition provision (remote : Service) (closure : UiState) : Handler string :=
  let orgOnlyClient :=
    {| service := remote;
       HEADERS := {| X_ORGANIZATION_SECRET := localApiKey closure;
                     X_USER_ID := None |} |} in
  userExists <-
    try_catch
      (users_getV1Users orgOnlyClient SAMPLE_USER_ID ;;
       console log [Text ("User " ^^ SAMPLE_USER_ID ^^ " exists")] ;;
       ret true)
      (fun _ =>
         console log [Text ("User " ^^ SAMPLE_USER_ID
                              ^^ " does not exist, will create it")] ;;
         ret false) ;;
  (if negb userExists then
     users_postV1Users orgOnlyClient API_VERSION
       {| ub_id := SAMPLE_USER_ID;
          ub_email := SAMPLE_USER_ID ^^ "@example.com";
          ub_name := "Sample User" |} ;;
     console log [Text ("Created user " ^^ SAMPLE_USER_ID)]
   else ret tt) ;;
  let userClient :=
    {| service := remote;
       HEADERS := {| X_ORGANIZATION_SECRET := localApiKey closure;
                     X_USER_ID := Some SAMPLE_USER_ID |} |} in
  replicas <- replicas_getV1Replicas userClient ;;
  found <-
    match replicas with
    | Some items =>
        match find (fun replica => slug replica =? SAMPLE_REPLICA_SLUG) items with
        | Some sampleReplica =>
            console log [Text ("Found existing replica: " ^^ SAMPLE_REPLICA_SLUG)] ;;
            ret (Some (uuid sampleReplica))
        | None => ret None
        end
    | None => ret None
    end ;;
  let createReplica :=
    newReplica <-
      replicas_postV1Replicas userClient API_VERSION
        {| rb_name := "Sample Replica";
           shortDescription := "A sample replica for demonstration";
           greeting := "Hello, I'm the sample replica. How can I help you today?";
           rb_slug := SAMPLE_REPLICA_SLUG;
           ownerID := SAMPLE_USER_ID;
           llm := {| model := "claude-3-7-sonnet-latest";
                     memoryMode := "prompt-caching";
                     systemMessage := "You are a helpful AI assistant that provides clear and concise responses." |} |} ;;
    console log [Text ("Created new replica: " ^^ SAMPLE_REPLICA_SLUG)] ;;
    ret newReplica in
  resolved <-
    match found with
    | Some u => if Js.truthy_str u then ret u else createReplica
    | None => createReplica
    end ;;
  setReplicaUuid (Some resolved) ;;
  ret resolved.

Definition initializeSession
    (remote : Service) (closure : UiState) (client : SensayAPI) : Handler string :=
  let uninitialized :=
    try_catch
      (provision remote closure)
      (fun error =>
         console error_level [Text "Error initializing session:"; Caught error] ;;
         throw (ErrorInstance
                  "Failed to initialize Sensay session. Please check your API key.")) in
  match replicaUuid closure with
  | Some cached => if Js.truthy_str cached then ret cached else uninitialized
  | None => uninitialized
  end.

(** The message the [catch] of [handleSubmit] extracts from what was
    thrown (the [errorMessage] variable of the source). *)
Definition errorMessage (err : Thrown) : Js.value :=
  match err with
  | ErrorInstance message => Js.Str message
  | Payload errorObj =>
      if Js.is_object errorObj then
        if Js.truthy (Js.get_opt (Js.get errorObj "error") "message") then
          Js.get (Js.get errorObj "error") "message"
        else if Js.truthy (Js.get errorObj "error") then
          if Js.is_string (Js.get errorObj "error")
          then Js.get errorObj "error"
          else Js.Str (Js.stringify (Js.get errorObj "error"))
        else if Js.truthy (Js.get errorObj "message") then
          Js.get errorObj "message"
        else if Js.truthy (Js.get_opt (Js.get errorObj "response") "data") then
          let respData := Js.get (Js.get errorObj "response") "data" in
          if Js.truthy (Js.get_opt (Js.get respData "error") "message") then
            Js.get (Js.get respData "error") "message"
          else if Js.truthy (Js.get respData "message") then
            Js.get respData "message"
          else if Js.is_string respData then
            respData
          else
            Js.Str ("API Error ("
                      ^^ Js.to_string (Js.get (Js.get errorObj "response") "status")
                      ^^ "): " ^^ Js.stringify respData)
        else
          Js.Str "Failed to send message. Please check your API key and try again."
      else
        Js.Str "Failed to send message. Please check your API key and try again."
  end.

Definition handleSubmit (remote : Service) (closure : UiState) : Handler unit :=
  if negb (Js.truthy_str (Js.trim (inputValue closure))) then ret tt
  else if negb (Js.truthy_str (localApiKey closure)) then
    setError (Js.Str "Please provide an API key")
  else
    setError Js.Null ;;
    let userMessage :=
      {| role := user; content := inputValue closure; name := None |} in
    setMessages (fun prevMessages => prevMessages ++ [userMessage]) ;;
    setInputValue "" ;;
    try_catch
      (let client :=
         {| service := remote;
            HEADERS := {| X_ORGANIZATION_SECRET := localApiKey closure;
                          X_USER_ID := Some SAMPLE_USER_ID |} |} in
       replica <- initializeSession remote closure client ;;
       let assistantMessage :=
         {| role := assistant; content := ""; name := None |} in
       setMessages (fun prevMessages => prevMessages ++ [assistantMessage]) ;;
       setIsLoading true ;;
       response <-
         chatCompletions_postV1ReplicasChatCompletions client replica API_VERSION
           {| cb_content := content userMessage;
              source := "web";
              skip_chat_history := false |} ;;
       setMessages (fun prevMessages =>
                      Js.set_last prevMessages
                        {| role := assistant; content := response; name := None |}) ;;
       setIsLoading false)
      (fun err =>
         console error_level [Text "Error sending message:"; Caught err] ;;
         setError (errorMessage err) ;;
         setIsLoading false ;;
         setMessages (fun prevMessages => Js.slice prevMessages 0 (-1))).

End Component.

(** ** Observations on a run *)

Definition outcome_of {A : Type} (r : Outcome A * UiState * list Event) : Outcome A :=
  fst (fst r).

Definition state_of {A : Type} (r : Outcome A * UiState * list Event) : UiState :=
  snd (fst r).

Definition trace_of {A : Type} (r : Outcome A * UiState * list Event) : list Event :=
  snd r.

(** The network calls of a trace, in order. *)
Fixpoint requests (t : list Event) : list Request :=
  match t with
  | [] => []
  | Net req _ :: rest => req :: requests rest
  | Console _ _ :: rest => requests rest
  end.

Definition is_user_creation (req : Request) : bool :=
  match req with PostV1Users _ _ _ => true | _ => false end.

Definition is_agent_creation (req : Request) : bool :=
  match req with PostV1Replicas _ _ _ => true | _ => false end.

Definition is_completion (req : Request) : bool :=
  match req with PostV1ReplicasChatCompletions _ _ _ _ => true | _ => false end.

(** The calls of the Provisioner: user lookup and creation, agent listing
    and creation. *)
Definition is_provisioning (req : Request) : bool := negb (is_completion req).

Definition count (p : Request -> bool) (t : list Event) : nat :=
  length (filter p (requests t)).

(** A submission passes both guards of [handleSubmit]. *)
Definition accepted (s : UiState) : Prop :=
  Js.truthy_str (Js.trim (inputValue s)) = true /\
  Js.truthy_str (localApiKey s) = true.

Section Shapes.

Context (SAMPLE_USER_ID SAMPLE_REPLICA_SLUG API_VERSION : string).

Definition orgHeaders (s : UiState) : Headers :=
  {| X_ORGANIZATION_SECRET := localApiKey s; X_USER_ID := None |}.

Definition userHeaders (s : UiState) : Headers :=
  {| X_ORGANIZATION_SECRET := localApiKey s; X_USER_ID := Some SAMPLE_USER_ID |}.

Definition sampleUser : UserBody :=
  {| ub_id := SAMPLE_USER_ID;
     ub_email := SAMPLE_USER_ID ^^ "@example.com";
     ub_name := "Sample User" |}.

Definition sampleReplica : ReplicaBody :=
  {| rb_name := "Sample Replica";
     shortDescription := "A sample replica for demonstration";
     greeting := "Hello, I'm the sample replica. How can I help you today?";
     rb_slug := SAMPLE_REPLICA_SLUG;
     ownerID := SAMPLE_USER_ID;
     llm := {| model := "claude-3-7-sonnet-latest";
               memoryMode := "prompt-caching";
               systemMessage := "You are a helpful AI assistant that provides clear and concise responses." |} |}.

(** The calls of the user step, as the answer to the lookup decides
    them: the lookup, then the creation when the lookup threw. *)
Definition user_step (remote : Service) (s : UiState) : list Request :=
  GetV1Users (orgHeaders s) SAMPLE_USER_ID ::
  match getV1Users remote (orgHeaders s) SAMPLE_USER_ID with
  | Resolved _ => []
  | Rejected _ => [PostV1Users (orgHeaders s) API_VERSION sampleUser]
  end.

(** The user step went through: the demo user was found or created. *)
Definition user_ready (remote : Service) (s : UiState) : Prop :=
  getV1Users remote (orgHeaders s) SAMPLE_USER_ID = Resolved tt \/
  postV1Users remote (orgHeaders s) API_VERSION sampleUser = Resolved tt.

(** The first listed agent carrying the demo slug. *)
Definition demo_agent (items : option (list Replica)) : option Replica :=
  match items with
  | Some l => find (fun replica => slug replica =? SAMPLE_REPLICA_SLUG) l
  | None => None
  end.

(** The client [handleSubmit] constructs. *)
Definition userClient (remote : Service) (s : UiState) : SensayAPI :=
  {| service := remote; HEADERS := userHeaders s |}.

Definition userMessage (s : UiState) : ChatMessage :=
  {| role := user; content := inputValue s; name := None |}.

Definition placeholder : ChatMessage :=
  {| role := assistant; content := ""; name := None |}.

Definition reply (text : string) : ChatMessage :=
  {| role := assistant; content := text; name := None |}.

(** The pending state once the user message is appended and the input
    cleared, before the [try] of [handleSubmit] starts. *)
Definition submitted (s : UiState) : UiState :=
  with_inputValue ""
    (with_messages (messages s ++ [userMessage s]) (with_error Js.Null s)).

Definition completionBody (s : UiState) : CompletionBody :=
  {| cb_content := inputValue s; source := "web"; skip_chat_history := false |}.

End Shapes.

Definition init_failed : string :=
  "Failed to initialize Sensay session. Please check your API key.".


(** [if (replicaUuid)]: an identifier is cached. *)
Definition cached (s : UiState) : bool :=
  match replicaUuid s with
  | Some id => Js.truthy_str id
  | None => false
  end.

(** A network call of the Provisioner issued while [s] is pending. *)
Definition provisioning_at (s : UiState) (ev : Event) : Prop :=
  match ev with
  | Net req pending => is_provisioning req = true /\ pending = s
  | Console _ _ => True
  end.

(** The completion call, issued with the placeholder in the transcript of
    the submission [st] and the in-progress flag set. *)
Definition awaiting_completion (st : UiState) (ev : Event) : Prop :=
  match ev with
  | Net req pending =>
      is_completion req = true /\
      messages pending = messages st ++ [userMessage st; placeholder] /\
      isLoading pending = true
  | Console _ _ => True
  end.

(** A network call issued after the submission [st] cleared the input and
    appended the user message. *)
Definition after_submission (st : UiState) (ev : Event) : Prop :=
  match ev with
  | Net _ pending =>
      inputValue pending = "" /\
      exists rest, messages pending = messages st ++ userMessage st :: rest
  | Console _ _ => True
  end.

(** ** Scenarios used to exercise the theorems *)
Module Scenario.

Definition USER_ID : string := "sample-user".
Definition SLUG : string := "sample-replica".
Definition VERSION : string := "2025-03-25".

Definition hello : UiState :=
  {| messages := []; inputValue := "Hello"; isLoading := false;
     error := Js.Null; localApiKey := "secret"; showConfig := false;
     replicaUuid := None |}.

(** Every call succeeds; the demo user is there, the demo agent is listed. *)
Definition healthy : Service :=
  {| getV1Users := fun _ _ => Resolved tt;
     postV1Users := fun _ _ _ => Resolved tt;
     getV1Replicas := fun _ =>
       Resolved (Some [ {| slug := "other"; uuid := "r-0" |};
                        {| slug := SLUG; uuid := "r-1" |} ]);
     postV1Replicas := fun _ _ _ => Resolved "r-2";
     postV1ReplicasChatCompletions := fun _ _ _ _ => Resolved "Hi there" |}.

(** A fresh organization: no demo user, no agent yet. *)
Definition fresh : Service :=
  {| getV1Users := fun _ _ => Rejected (Payload (Js.Obj [("status", Js.Num 404)]));
     postV1Users := fun _ _ _ => Resolved tt;
     getV1Replicas := fun _ => Resolved (Some []);
     postV1Replicas := fun _ _ _ => Resolved "r-2";
     postV1ReplicasChatCompletions := fun _ _ _ _ => Resolved "Hi there" |}.

(** The organization secret is refused by every provisioning call. *)
Definition unauthorized : Service :=
  {| getV1Users := fun _ _ =>
       Rejected (Payload (Js.Obj [("error", Js.Str "Unauthorized")]));
     postV1Users := fun _ _ _ =>
       Rejected (Payload (Js.Obj [("error", Js.Str "Unauthorized")]));
     getV1Replicas := fun _ =>
       Rejected (Payload (Js.Obj [("error", Js.Str "Unauthorized")]));
     postV1Replicas := fun _ _ _ =>
       Rejected (Payload (Js.Obj [("error", Js.Str "Unauthorized")]));
     postV1ReplicasChatCompletions := fun _ _ _ _ => Resolved "Hi there" |}.

(** Provisioning works, the completion call throws the given value. *)
Definition failing_completion (err : Thrown) : Service :=
  {| getV1Users := fun _ _ => Resolved tt;
     postV1Users := fun _ _ _ => Resolved tt;
     getV1Replicas := fun _ =>
       Resolved (Some [ {| slug := SLUG; uuid := "r-1" |} ]);
     postV1Replicas := fun _ _ _ => Resolved "r-2";
     postV1ReplicasChatCompletions := fun _ _ _ _ => Rejected err |}.

End Scenario.

(** The component with the scenario's constants. *)
Module Run.

Import Scenario.

Definition initializeSession := initializeSession USER_ID SLUG VERSION.
Definition handleSubmit := handleSubmit USER_ID SLUG VERSION.
Definition userClient := userClient USER_ID.
Definition userHeaders := userHeaders USER_ID.

(** The credential field left empty, [Hello] typed. *)
Definition no_credential : UiState := with_localApiKey "" hello.

(** Three spaces typed, no credential entered. *)
Definition blank : UiState := with_inputValue "   " (initialState None).

(** An agent resolved under the credential [secret]. *)
Definition provisioned : UiState := with_replicaUuid (Some "r-1") hello.


(** Payloads of no recognized shape, one with a status next to an absent
    [data], one in the shape [{status, body}]. *)
Definition status_only : Js.value :=
  Js.Obj [("response", Js.Obj [("status", Js.Num 500)])].


End Run.

(** ** The rest of the component: keyboard, rendering, conversation *)

(** What [handleKeyDown] reads of a keyboard event. *)
Record KeyboardEvent : Type := {
  key : string;
  shiftKey : bool
}.

(** One element of [formatMessage]: [<span key={i}>{line}<br /></span>]. *)
Record Span : Type := {
  span_key : nat;
  line : string
}.

Fixpoint map_indexed {A B : Type} (f : A -> nat -> B) (i : nat) (l : list A) : list B :=
  match l with
  | [] => []
  | x :: rest => f x i :: map_indexed f (S i) rest
  end.

(** [formatMessage]: one span per line of the content. *)
Definition formatMessage (content : string) : list Span :=
  map_indexed (fun line i => {| span_key := i; line := line |}) 0
              (Js.split content Js.newline).

(** The expressions of the [disabled] attribute of the submit button and
    of the textarea, evaluated on a state. *)
Definition submitDisabled (s : UiState) : bool :=
  isLoading s || negb (Js.truthy_str (Js.trim (inputValue s))).

Definition textareaDisabled (s : UiState) : bool := isLoading s.

(** The requests carry the headers of the client that issued them. *)
Definition headers_of (req : Request) : Headers :=
  match req with
  | GetV1Users h _ => h
  | PostV1Users h _ _ => h
  | GetV1Replicas h => h
  | PostV1Replicas h _ _ => h
  | PostV1ReplicasChatCompletions h _ _ _ => h
  end.

Section Rest.

Context (SAMPLE_USER_ID SAMPLE_REPLICA_SLUG API_VERSION : string).

(** [handleKeyDown]; the result tells whether [e.preventDefault()] was
    called, that is, whether the key's own effect on the textarea (a new
    line for Enter) was suppressed. *)
Definition handleKeyDown
    (remote : Service) (closure : UiState) (e : KeyboardEvent) : Handler bool :=
  if (key e =? "Enter") && negb (shiftKey e) then
    handleSubmit SAMPLE_USER_ID SAMPLE_REPLICA_SLUG API_VERSION remote closure ;;
    ret true
  else ret false.

(** A conversation: the user types each text in turn and submits it, each
    handler being the one of the render that shows the state at that time.
    Every turn comes with the service as it answers at that moment, so that
    a reply may depend on what was said before. *)
Fixpoint converse (turns : list (string * Service)) : Handler unit :=
  match turns with
  | [] => ret tt
  | (text, remote) :: rest =>
      handleInputChange text ;;
      render (handleSubmit SAMPLE_USER_ID SAMPLE_REPLICA_SLUG API_VERSION remote) ;;
      converse rest
  end.

(** The headers a request of the submission [st] is expected to carry: the
    credential of [st] always, the demo user except on the user calls. *)
Definition addressed_from (st : UiState) (req : Request) : Prop :=
  X_ORGANIZATION_SECRET (headers_of req) = localApiKey st /\
  X_USER_ID (headers_of req)
  = match req with
    | GetV1Users _ _ | PostV1Users _ _ _ => None
    | _ => Some SAMPLE_USER_ID
    end.

(** The completion call for one text of a conversation. *)
Definition completion_for (st : UiState) (id text : string) : Request :=
  PostV1ReplicasChatCompletions
    (userHeaders SAMPLE_USER_ID st) id API_VERSION
    {| cb_content := text; source := "web"; skip_chat_history := false |}.

End Rest.

(** One turn of a conversation as it is expected to go: the text typed,
    the service at that moment, the reply it gives. *)
Record Turn : Type := {
  typed : string;
  answering : Service;
  replied : string
}.

(** The two messages a successful turn adds. *)
Definition exchange (t : Turn) : list ChatMessage :=
  [ {| role := user; content := typed t; name := None |};
    {| role := assistant; content := replied t; name := None |} ].

(** More scenarios. *)
Module Extra.

Import Scenario.

Definition handleKeyDown := handleKeyDown USER_ID SLUG VERSION.
Definition converse := converse USER_ID SLUG VERSION.
Definition completion_for := completion_for USER_ID VERSION.

Definition enter : KeyboardEvent := {| key := "Enter"; shiftKey := false |}.
Definition shift_enter : KeyboardEvent := {| key := "Enter"; shiftKey := true |}.

(** An agent that greets, and the same agent once it has been greeted:
    the same text gets another reply. *)
Definition replying (reply : string) : Service :=
  {| getV1Users := fun _ _ => Resolved tt;
     postV1Users := fun _ _ _ => Resolved tt;
     getV1Replicas := fun _ =>
       Resolved (Some [ {| slug := SLUG; uuid := "r-1" |} ]);
     postV1Replicas := fun _ _ _ => Resolved "r-2";
     postV1ReplicasChatCompletions := fun _ _ _ _ => Resolved reply |}.

Definition greetings : list Turn :=
  [ {| typed := "Hello"; answering := replying "Hi there"; replied := "Hi there" |};
    {| typed := "Hello"; answering := replying "Hello again";
       replied := "Hello again" |} ].

(** Thrown payloads carrying their message inside [response.data]. *)
Definition internal_error : Js.value :=
  Js.Obj [("response",
           Js.Obj [("status", Js.Num 500);
                   ("data", Js.Obj [("message", Js.Str "internal error")])])].

Definition bad_gateway : Js.value :=
  Js.Obj [("response", Js.Obj [("data", Js.Str "Bad Gateway")])].

End Extra.

(** ** Facts about the built-ins *)

Lemma slice_drop_last {A : Type} (l : list A) (x : A) :
  Js.slice (l ++ [x]) 0 (-1) = l.
Proof.
  unfold Js.slice.
  rewrite length_app; cbn [length].
  replace (0 <? 0)%Z with false by reflexivity.
  replace (-1 <? 0)%Z with true by reflexivity.
  rewrite Z.min_l by lia.
  rewrite Z.max_l by lia.
  replace (Z.to_nat (Z.of_nat (length l + 1) + -1 - 0)) with (length l) by lia.
  cbn [Z.to_nat skipn].
  rewrite firstn_app, Nat.sub_diag, firstn_all; cbn [firstn].
  apply app_nil_r.
Qed.

Lemma slice_drop_last_nil {A : Type} : Js.slice (@nil A) 0 (-1) = [].
Proof. reflexivity. Qed.

Lemma set_last_app {A : Type} (l : list A) (x v : A) :
  Js.set_last (l ++ [x]) v = l ++ [v].
Proof.
  unfold Js.set_last.
  destruct (l ++ [x]) eqn:E.
  - destruct l; discriminate.
  - rewrite <- E, removelast_last. reflexivity.
Qed.

Lemma trimEnd_empty (s : string) :
  Js.trimEnd s = "" <-> Js.all_whitespace s = true.
Proof.
  induction s as [|c rest IH]; cbn [Js.trimEnd Js.all_whitespace].
  - tauto.
  - destruct (Js.trimEnd rest) eqn:E.
    + destruct (Js.is_whitespace c); cbn [andb].
      * tauto.
      * split; discriminate.
    + split; [discriminate|].
      intros H. apply andb_true_iff in H. destruct H as [_ H].
      apply IH in H. discriminate.
Qed.

Lemma all_whitespace_trimStart (s : string) :
  Js.all_whitespace (Js.trimStart s) = Js.all_whitespace s.
Proof.
  induction s as [|c rest IH]; cbn [Js.trimStart]; [reflexivity|].
  destruct (Js.is_whitespace c) eqn:E; [|reflexivity].
  cbn [Js.all_whitespace]. rewrite E. exact IH.
Qed.

(** [!s.trim()] holds exactly for the empty and the white-space-only [s]. *)
Lemma trim_blank (s : string) :
  Js.truthy_str (Js.trim s) = negb (Js.all_whitespace s).
Proof.
  unfold Js.truthy_str, Js.trim. f_equal.
  rewrite <- (all_whitespace_trimStart s).
  destruct (Js.all_whitespace (Js.trimStart s)) eqn:E.
  - apply trimEnd_empty in E. rewrite E. reflexivity.
  - destruct (Js.trimEnd (Js.trimStart s)) eqn:T; [|reflexivity].
    apply trimEnd_empty in T. congruence.
Qed.



(** ** Runs of the Provisioner *)

(** Unfold the monad and the client down to the service's answers. *)
Ltac unfold_handlers :=
  cbv beta iota zeta delta
    [initializeSession provision handleSubmit handleApiKeyChange apiKeyEffect
     handleInputChange render
     bind ret throw try_catch await console modify
     setMessages setInputValue setIsLoading setError setLocalApiKey
     setShowConfig setReplicaUuid
     users_getV1Users users_postV1Users replicas_getV1Replicas
     replicas_postV1Replicas chatCompletions_postV1ReplicasChatCompletions
     service HEADERS outcome_of state_of trace_of fst snd negb].

(** Expose the cache test of [initializeSession] and the guards of
    [handleSubmit]. *)
Ltac enter_initializeSession := unfold initializeSession.
Ltac enter_handleSubmit := unfold render, handleSubmit.

Ltac enter_handleKeyDown := unfold handleKeyDown.
Ltac enter_converse_step := cbn [converse].
Ltac enter_shapes :=
  unfold completion_for, user_ready, user_step, demo_agent, orgHeaders,
         userHeaders, sampleUser, sampleReplica.

(** Split on the next answer, guard or search the run depends on. *)
Ltac split_run :=
  match goal with
  | |- context [match ?x with _ => _ end] =>
      lazymatch x with
      | context [match _ with _ => _ end] => fail
      | _ => let E := fresh "E" in destruct x eqn:E
      end
  end.

Ltac run_cases := unfold_handlers; repeat (split_run; cbv beta iota zeta).

Lemma falsy_get_opt (v : Js.value) (k : string) :
  Js.truthy v = false -> Js.get_opt v k = Js.Undefined.
Proof. destruct v; cbn; intros H; try reflexivity; discriminate. Qed.

(** Property access on a nullish value yields [undefined] in the model, so
    the optional chain reads like the plain one. *)
Lemma get_opt_get (v : Js.value) (k : string) : Js.get_opt v k = Js.get v k.
Proof. destruct v; reflexivity. Qed.


Lemma nonempty_truthy (s : string) : s <> "" -> Js.truthy (Js.Str s) = true.
Proof.
  intros H. cbn. destruct (String.eqb_spec s ""); [contradiction | reflexivity].
Qed.

Lemma requests_app (t1 t2 : list Event) :
  requests (t1 ++ t2) = requests t1 ++ requests t2.
Proof.
  induction t1 as [|[req p|lvl args] t1 IH]; cbn [app requests];
    [reflexivity | f_equal; exact IH | exact IH].
Qed.

Section Provisioner.

Context (SAMPLE_USER_ID SAMPLE_REPLICA_SLUG API_VERSION : string).

Local Abbreviation initializeSession :=
  (initializeSession SAMPLE_USER_ID SAMPLE_REPLICA_SLUG API_VERSION).

Lemma initializeSession_cached remote closure client s id :
  replicaUuid closure = Some id ->
  id <> "" ->
  initializeSession remote closure client s = (Resolved id, s, []).
Proof.
  intros Hc Hid. enter_initializeSession. rewrite Hc.
  unfold Js.truthy_str.
  destruct (String.eqb_spec id ""); [contradiction | reflexivity].
Qed.

Lemma provision_pending remote closure s s' :
  outcome_of (provision SAMPLE_USER_ID SAMPLE_REPLICA_SLUG API_VERSION remote closure s)
  = outcome_of (provision SAMPLE_USER_ID SAMPLE_REPLICA_SLUG API_VERSION remote closure s') /\
  requests (trace_of (provision SAMPLE_USER_ID SAMPLE_REPLICA_SLUG API_VERSION remote closure s))
  = requests (trace_of (provision SAMPLE_USER_ID SAMPLE_REPLICA_SLUG API_VERSION remote closure s')).
Proof.
  run_cases; cbn [app requests]; split; reflexivity.
Qed.

Lemma initializeSession_uncached remote closure client s :
  cached closure = false ->
  initializeSession remote closure client s =
  try_catch
    (provision SAMPLE_USER_ID SAMPLE_REPLICA_SLUG API_VERSION remote closure)
    (fun error =>
       console error_level [Text "Error initializing session:"; Caught error] ;;
       throw (ErrorInstance init_failed)) s.
Proof.
  unfold cached. enter_initializeSession.
  destruct (replicaUuid closure) as [id|]; [|reflexivity].
  intros ->. reflexivity.
Qed.

(** A cached identifier is returned as it is. *)
Lemma initializeSession_when_cached remote closure client s :
  cached closure = true ->
  exists id, replicaUuid closure = Some id /\ id <> "" /\
             initializeSession remote closure client s = (Resolved id, s, []).
Proof.
  unfold cached. destruct (replicaUuid closure) as [id|] eqn:E; [|discriminate].
  intros H. exists id. split; [reflexivity|].
  assert (id <> "") as Hid.
  { unfold Js.truthy_str in H. destruct (String.eqb_spec id ""); [discriminate | assumption]. }
  split; [exact Hid|]. now apply initializeSession_cached.
Qed.

(** Either the cache answers, or the [try] of [initializeSession] runs. *)
Ltac provisioner_cases remote closure client s :=
  let Hc := fresh "Hc" in
  destruct (cached closure) eqn:Hc;
  [ let id := fresh "id" in
    let Hid := fresh "Hid" in
    let Hne := fresh "Hne" in
    destruct (initializeSession_when_cached remote closure client s Hc)
      as (id & Hid & Hne & ->)
  | rewrite (initializeSession_uncached remote closure client s Hc) ].

(** Every network call of the Provisioner is a provisioning call that sees
    the state the Provisioner was entered with. *)
Lemma initializeSession_trace remote closure client s :
  Forall (provisioning_at s)
         (trace_of (initializeSession remote closure client s)).
Proof.
  provisioner_cases remote closure client s.
  - constructor.
  - run_cases; cbn [app]; repeat constructor.
Qed.

(** The Provisioner writes the cache and nothing else; a failed run writes
    nothing and throws the one fixed error, the cause going to the console. *)
Lemma initializeSession_state remote closure client s o s' t :
  initializeSession remote closure client s = (o, s', t) ->
  match o with
  | Resolved id =>
      (replicaUuid closure = Some id /\ id <> "" /\ s' = s /\ t = []) \/
      (cached closure = false /\ s' = with_replicaUuid (Some id) s)
  | Rejected e =>
      e = ErrorInstance init_failed /\ s' = s /\
      exists cause,
        In (Console error_level [Text "Error initializing session:"; Caught cause]) t
  end.
Proof.
  provisioner_cases remote closure client s.
  - intros [= <- <- <-]. left. auto.
  - run_cases; cbn [app]; intros [= <- <- <-]; auto;
      (split; [reflexivity | split; [reflexivity |]]);
      eexists; cbn [In]; eauto 10.
Qed.

(** Outcome and calls do not depend on the pending state. *)
Lemma initializeSession_pending remote closure client s s' :
  outcome_of (initializeSession remote closure client s)
  = outcome_of (initializeSession remote closure client s') /\
  requests (trace_of (initializeSession remote closure client s))
  = requests (trace_of (initializeSession remote closure client s')).
Proof.
  destruct (cached closure) eqn:Hc.
  - destruct (initializeSession_when_cached remote closure client s Hc)
      as (id & Hid & Hne & ->).
    rewrite (initializeSession_cached remote closure client s' id Hid Hne).
    split; reflexivity.
  - rewrite !(initializeSession_uncached _ _ _ _ Hc).
    unfold outcome_of, trace_of, try_catch.
    pose proof (provision_pending remote closure s s') as H.
    destruct (provision _ _ _ remote closure s) as [[o1 s1] t1].
    destruct (provision _ _ _ remote closure s') as [[o2 s2] t2].
    unfold outcome_of, trace_of in H. cbn [fst snd] in H. destruct H as [-> Ht].
    destruct o2; cbn [fst snd]; [tauto|].
    unfold_handlers. cbn [fst snd]. split; [reflexivity|].
    rewrite !requests_app, Ht. reflexivity.
Qed.

Lemma initializeSession_creations remote closure client s :
  forall t, t = trace_of (initializeSession remote closure client s) ->
  count is_user_creation t <= 1 /\ count is_agent_creation t <= 1.
Proof.
  provisioner_cases remote closure client s.
  - intros t ->. cbv. lia.
  - run_cases; intros t ->; cbv; lia.
Qed.

Local Abbreviation userHeaders := (userHeaders SAMPLE_USER_ID).
Local Abbreviation sampleUser := (sampleUser SAMPLE_USER_ID).
Local Abbreviation sampleReplica := (sampleReplica SAMPLE_USER_ID SAMPLE_REPLICA_SLUG).
Local Abbreviation user_step := (user_step SAMPLE_USER_ID API_VERSION).
Local Abbreviation user_ready := (user_ready SAMPLE_USER_ID API_VERSION).
Local Abbreviation demo_agent := (demo_agent SAMPLE_REPLICA_SLUG).

(** C3. The Provisioner is idempotent per credential: once an invocation
    has resolved an agent identifier, the next invocation under the same
    credential (whatever the service would answer, whatever client is
    passed) returns that identifier with no network call at all, so both
    invocations together issue at most one user-creation and at most one
    agent-creation call.  The identifier is assumed non-empty, as a
    service-issued UUID is: the cache is tested for truthiness. *)
Theorem provisioner_idempotent
    remote1 remote2 client1 client2 s1 s2 id t1 :
  render (fun closure => initializeSession remote1 closure client1) s1
  = (Resolved id, s2, t1) ->
  id <> "" ->
  localApiKey s2 = localApiKey s1 /\
  render (fun closure => initializeSession remote2 closure client2) s2
  = (Resolved id, s2, []) /\
  count is_user_creation
    (t1 ++ trace_of (render (fun closure => initializeSession remote2 closure client2) s2))
  <= 1 /\
  count is_agent_creation
    (t1 ++ trace_of (render (fun closure => initializeSession remote2 closure client2) s2))
  <= 1.
Proof.
  unfold render. intros Hrun Hid.
  assert (replicaUuid s2 = Some id /\ localApiKey s2 = localApiKey s1) as [Hcache Hkey].
  { pose proof (initializeSession_state _ _ _ _ _ _ _ Hrun) as H. cbn in H.
    destruct H as [(Hc & _ & -> & _) | (_ & ->)]; split; auto. }
  split; [exact Hkey|].
  rewrite (initializeSession_cached remote2 s2 client2 s2 id Hcache Hid).
  split; [reflexivity|].
  cbn [trace_of snd]. rewrite app_nil_r.
  apply (initializeSession_creations remote1 s1 client1 s1).
  rewrite Hrun. reflexivity.
Qed.

(** C8. An uncached provisioning run.  A failed fetch of the demo user is
    followed by the creation of the user with the fixed identifier and the
    email [<id>@example.com].  Once the user is found or created the agents
    are listed under the user-scoped headers; the first agent carrying the
    demo slug has its identifier adopted and cached without any creation;
    when no agent carries the slug, an agent is created with the fixed demo
    metadata and the identifier of the new agent is adopted and cached.
    Agent identifiers are assumed non-empty, as service-issued UUIDs are. *)
Theorem provisioner_steps remote closure client s :
  cached closure = false ->
  let run := initializeSession remote closure client s in
  (ub_id sampleUser = SAMPLE_USER_ID /\
   ub_email sampleUser = SAMPLE_USER_ID ^^ "@example.com" /\
   X_USER_ID (userHeaders closure) = Some SAMPLE_USER_ID /\
   X_ORGANIZATION_SECRET (userHeaders closure) = localApiKey closure) /\
  (forall e,
      getV1Users remote (orgHeaders closure) SAMPLE_USER_ID = Rejected e ->
      firstn 2 (requests (trace_of run))
      = [GetV1Users (orgHeaders closure) SAMPLE_USER_ID;
         PostV1Users (orgHeaders closure) API_VERSION sampleUser]) /\
  (user_ready remote closure ->
   forall items agent,
     getV1Replicas remote (userHeaders closure) = Resolved items ->
     demo_agent items = Some agent ->
     uuid agent <> "" ->
     outcome_of run = Resolved (uuid agent) /\
     state_of run = with_replicaUuid (Some (uuid agent)) s /\
     requests (trace_of run)
     = user_step remote closure ++ [GetV1Replicas (userHeaders closure)]) /\
  (user_ready remote closure ->
   forall items,
     getV1Replicas remote (userHeaders closure) = Resolved items ->
     demo_agent items = None ->
     requests (trace_of run)
     = user_step remote closure
         ++ [GetV1Replicas (userHeaders closure);
             PostV1Replicas (userHeaders closure) API_VERSION sampleReplica] /\
     forall id,
       postV1Replicas remote (userHeaders closure) API_VERSION sampleReplica
       = Resolved id ->
       outcome_of run = Resolved id /\
       state_of run = with_replicaUuid (Some id) s).
Proof.
  intros Hc run. subst run.
  rewrite (initializeSession_uncached remote closure client s Hc).
  split; [repeat split|].
  unfold user_ready, user_step, demo_agent, orgHeaders, userHeaders, sampleUser, sampleReplica.
  split; [|split].
  - intros e He. unfold_handlers. rewrite He. cbv beta iota zeta delta [negb].
    repeat (split_run; cbv beta iota zeta); reflexivity.
  - intros Hready items agent Hlist Hfind Hne.
    assert (Js.truthy_str (uuid agent) = true) as Htruthy.
    { unfold Js.truthy_str. destruct (String.eqb_spec (uuid agent) ""); [contradiction | reflexivity]. }
    unfold_handlers. rewrite Hlist.
    destruct (getV1Users remote _ SAMPLE_USER_ID) as [[]|e0]; cbv beta iota zeta.
    + destruct items as [l|]; [|discriminate]. cbv beta iota zeta in Hfind |- *.
      rewrite Hfind. cbv beta iota zeta. rewrite Htruthy. cbv beta iota zeta.
      repeat split.
    + destruct Hready as [Hready|Hready]; [discriminate|]. rewrite Hready.
      cbv beta iota zeta delta [negb].
      destruct items as [l|]; [|discriminate]. cbv beta iota zeta in Hfind |- *.
      rewrite Hfind. cbv beta iota zeta. rewrite Htruthy. cbv beta iota zeta.
      repeat split.
  - intros Hready items Hlist Hfind.
    unfold_handlers. rewrite Hlist.
    destruct (getV1Users remote _ SAMPLE_USER_ID) as [[]|e0]; cbv beta iota zeta.
    + destruct items as [l|]; cbv beta iota zeta in Hfind |- *;
        [rewrite Hfind; cbv beta iota zeta|];
        (destruct (postV1Replicas remote _ API_VERSION _) as [id0|e1];
         cbv beta iota zeta;
         (split; [reflexivity | intros id [= <-] || intros id [=]; repeat split])).
    + destruct Hready as [Hready|Hready]; [discriminate|]. rewrite Hready.
      cbv beta iota zeta delta [negb].
      destruct items as [l|]; cbv beta iota zeta in Hfind |- *;
        [rewrite Hfind; cbv beta iota zeta|];
        (destruct (postV1Replicas remote _ API_VERSION _) as [id0|e1];
         cbv beta iota zeta;
         (split; [reflexivity | intros id [= <-] || intros id [=]; repeat split])).
Qed.

End Provisioner.

(** ** Runs of the Exchanger *)

Section Exchanger.

Context (SAMPLE_USER_ID SAMPLE_REPLICA_SLUG API_VERSION : string).

Local Abbreviation initializeSession :=
  (initializeSession SAMPLE_USER_ID SAMPLE_REPLICA_SLUG API_VERSION).
Local Abbreviation handleSubmit :=
  (handleSubmit SAMPLE_USER_ID SAMPLE_REPLICA_SLUG API_VERSION).
Local Abbreviation userHeaders := (userHeaders SAMPLE_USER_ID).
Local Abbreviation userClient := (userClient SAMPLE_USER_ID).

(** The state [catch] leaves, entered with [s] pending and [err] caught. *)
Local Abbreviation rolled_back err s :=
  (with_messages
     (Js.slice (messages (with_isLoading false (with_error (errorMessage err) s))) 0 (-1))
     (with_isLoading false (with_error (errorMessage err) s))).

(** The state in which the completion call is awaited. *)
Local Abbreviation awaiting s :=
  (with_isLoading true (with_messages (messages s ++ [placeholder]) s)).

(** An accepted submission, unfolded down to the Provisioner's run and
    the answer of the completion call. *)
Lemma handleSubmit_accepted remote st :
  accepted st ->
  render (handleSubmit remote) st =
  match initializeSession remote st (userClient remote st) (submitted st) with
  | (Resolved id, s2, t1) =>
      let call :=
        Net (PostV1ReplicasChatCompletions
               (userHeaders st) id API_VERSION (completionBody st))
            (awaiting s2) in
      match postV1ReplicasChatCompletions
              remote (userHeaders st) id API_VERSION (completionBody st) with
      | Resolved text =>
          (Resolved tt,
           with_isLoading false
             (with_messages (Js.set_last (messages (awaiting s2)) (reply text))
                            (awaiting s2)),
           t1 ++ [call])
      | Rejected err =>
          (Resolved tt, rolled_back err (awaiting s2),
           t1 ++ [call; Console error_level [Text "Error sending message:"; Caught err]])
      end
  | (Rejected e, s2, t1) =>
      (Resolved tt, rolled_back e s2,
       t1 ++ [Console error_level [Text "Error sending message:"; Caught e]])
  end.
Proof.
  intros [Hin Hkey].
  enter_handleSubmit. rewrite Hin, Hkey. cbn [negb].
  cbv beta iota zeta delta
    [bind ret throw try_catch await console modify
     setMessages setInputValue setIsLoading setError
     chatCompletions_postV1ReplicasChatCompletions service HEADERS].
  change (with_inputValue "" (with_messages _ (with_error Js.Null st)))
    with (submitted st).
  destruct (initializeSession remote st _ (submitted st)) as [[[id|e] s2] t1].
  - destruct (postV1ReplicasChatCompletions remote _ id API_VERSION _) as [text|err].
    + reflexivity.
    + cbn [app]. rewrite <- app_assoc. reflexivity.
  - reflexivity.
Qed.

(** What the Provisioner contributes to an accepted submission: its run
    from the pending state [submitted st], with the outcome it would have
    from [st] itself. *)
Lemma provisioner_within_submit remote st o s2 t1 :
  initializeSession remote st (userClient remote st) (submitted st) = (o, s2, t1) ->
  o = outcome_of (initializeSession remote st (userClient remote st) st) /\
  Forall (provisioning_at (submitted st)) t1 /\
  match o with
  | Resolved id =>
      s2 = submitted st \/ s2 = with_replicaUuid (Some id) (submitted st)
  | Rejected e =>
      e = ErrorInstance init_failed /\ s2 = submitted st /\
      exists cause,
        In (Console error_level [Text "Error initializing session:"; Caught cause]) t1
  end.
Proof.
  intros Hrun.
  pose proof (initializeSession_pending SAMPLE_USER_ID SAMPLE_REPLICA_SLUG API_VERSION
                remote st (userClient remote st) st (submitted st)) as [Ho _].
  pose proof (initializeSession_trace SAMPLE_USER_ID SAMPLE_REPLICA_SLUG API_VERSION
                remote st (userClient remote st) (submitted st)) as Htr.
  pose proof (initializeSession_state SAMPLE_USER_ID SAMPLE_REPLICA_SLUG API_VERSION
                _ _ _ _ _ _ _ Hrun) as Hst.
  rewrite Hrun in Ho, Htr. cbn [outcome_of trace_of fst snd] in Ho, Htr.
  split; [symmetry; exact Ho|]. split; [exact Htr|].
  destruct o as [id|e].
  - destruct Hst as [(_ & _ & -> & _) | (_ & ->)]; auto.
  - exact Hst.
Qed.

(** C9. A successful exchange: the completion endpoint is called with the
    submitted text, the source tag [web] and history skipping off, while
    the transcript is the previous one followed by the user message and
    the empty assistant placeholder and the in-progress flag is set; when
    the call returns, the placeholder's content is replaced by the reply
    and the flag is cleared.  From an empty transcript, submitting [Hello]
    and receiving [Hi there] gives [user:Hello, assistant:""] and then
    [user:Hello, assistant:"Hi there"]. *)
Theorem successful_exchange remote st id text :
  accepted st ->
  outcome_of (initializeSession remote st (userClient remote st) st) = Resolved id ->
  postV1ReplicasChatCompletions remote (userHeaders st) id API_VERSION
    {| cb_content := inputValue st; source := "web"; skip_chat_history := false |}
  = Resolved text ->
  let run := render (handleSubmit remote) st in
  outcome_of run = Resolved tt /\
  messages (state_of run) = messages st ++ [userMessage st; reply text] /\
  isLoading (state_of run) = false /\
  exists before pending,
    trace_of run
    = before ++
      [Net (PostV1ReplicasChatCompletions (userHeaders st) id API_VERSION
              {| cb_content := inputValue st; source := "web";
                 skip_chat_history := false |})
           pending] /\
    Forall (provisioning_at (submitted st)) before /\
    messages pending = messages st ++ [userMessage st; placeholder] /\
    isLoading pending = true.
Proof.
  intros Hacc Hinit Hcomp run. subst run.
  rewrite (handleSubmit_accepted remote st Hacc).
  destruct (initializeSession remote st _ (submitted st)) as [[o s2] t1] eqn:Hrun.
  destruct (provisioner_within_submit _ _ _ _ _ Hrun) as (Ho & Htr & Hst).
  rewrite Hinit in Ho. subst o.
  unfold completionBody. rewrite Hcomp.
  cbn [outcome_of state_of trace_of fst snd].
  assert (messages s2 = messages st ++ [userMessage st]) as Hm
      by (destruct Hst as [-> | ->]; reflexivity).
  split; [reflexivity|]. split; [|split; [reflexivity|]].
  - cbn [messages with_isLoading with_messages].
    rewrite set_last_app, Hm, <- app_assoc. reflexivity.
  - eexists. eexists. split; [reflexivity|]. split; [exact Htr|].
    cbn [messages isLoading with_isLoading with_messages].
    rewrite Hm, <- app_assoc. split; reflexivity.
Qed.

(** C10. An accepted submission always runs to completion without
    throwing; every network call it issues already sees the input field
    cleared and the user message appended; the input field is still empty
    at the end, whether the exchange succeeded or failed, and the
    in-progress flag is false at the end. *)
Theorem input_cleared_and_flag_released remote st :
  accepted st ->
  let run := render (handleSubmit remote) st in
  outcome_of run = Resolved tt /\
  Forall (after_submission st) (trace_of run) /\
  inputValue (state_of run) = "" /\
  isLoading (state_of run) = false.
Proof.
  intros Hacc run. subst run.
  rewrite (handleSubmit_accepted remote st Hacc).
  destruct (initializeSession remote st _ (submitted st)) as [[o s2] t1] eqn:Hrun.
  destruct (provisioner_within_submit _ _ _ _ _ Hrun) as (_ & Htr & Hst).
  assert (Forall (after_submission st) t1) as Hbefore.
  { eapply Forall_impl; [|exact Htr].
    intros [req pending|lvl args]; cbn; [|trivial].
    intros [_ ->]. split; [reflexivity|]. exists []. reflexivity. }
  destruct o as [id|e].
  - assert (inputValue s2 = "" /\ messages s2 = messages st ++ [userMessage st])
      as [Hi Hm] by (destruct Hst as [-> | ->]; split; reflexivity).
    assert (after_submission st
              (Net (PostV1ReplicasChatCompletions (userHeaders st) id API_VERSION
                      (completionBody st))
                   (with_isLoading true
                      (with_messages (messages s2 ++ [placeholder]) s2)))) as Hcall.
    { cbn. split; [exact Hi|]. exists [placeholder].
      rewrite Hm, <- app_assoc. reflexivity. }
    cbv zeta.
    destruct (postV1ReplicasChatCompletions remote _ id API_VERSION _) as [text|err];
      cbn [outcome_of state_of trace_of fst snd];
      (split; [reflexivity|]); (split; [|split; [exact Hi | reflexivity]]);
      apply Forall_app; (split; [exact Hbefore|]);
      repeat (apply Forall_cons; [first [exact Hcall | exact I] |]);
      apply Forall_nil.
  - destruct Hst as (_ & -> & _).
    cbn [outcome_of state_of trace_of fst snd].
    split; [reflexivity|]. split; [|split; reflexivity].
    apply Forall_app. split; [exact Hbefore|]. repeat constructor.
Qed.

(** C1. The transcript after a failed exchange.  When the completion call
    throws, the [catch] removes the placeholder and the transcript is the
    previous one followed by the user message.  When the Provisioner
    throws, no placeholder has been appended yet, the [catch] removes the
    last entry all the same, and the transcript is back to what it was
    before the submission: the user message is gone. *)
Theorem failed_exchange_transcript remote st :
  accepted st ->
  let run := render (handleSubmit remote) st in
  (forall id err,
      outcome_of (initializeSession remote st (userClient remote st) st) = Resolved id ->
      postV1ReplicasChatCompletions remote (userHeaders st) id API_VERSION
        (completionBody st) = Rejected err ->
      messages (state_of run) = messages st ++ [userMessage st]) /\
  (forall e,
      outcome_of (initializeSession remote st (userClient remote st) st) = Rejected e ->
      messages (state_of run) = messages st).
Proof.
  intros Hacc run. subst run.
  rewrite (handleSubmit_accepted remote st Hacc).
  destruct (initializeSession remote st _ (submitted st)) as [[o s2] t1] eqn:Hrun.
  destruct (provisioner_within_submit _ _ _ _ _ Hrun) as (Ho & _ & Hst).
  rewrite <- Ho. split.
  - intros id err -> Hcomp. rewrite Hcomp.
    cbn [state_of fst snd messages with_messages with_isLoading with_error].
    rewrite slice_drop_last.
    destruct Hst as [-> | ->]; reflexivity.
  - intros e ->. destruct Hst as (_ & -> & _).
    cbn [state_of fst snd messages with_messages with_isLoading with_error
         submitted with_inputValue].
    apply slice_drop_last.
Qed.


(** C5 (amended). A submission whose input is empty or white space only,
    or whose credential is absent, appends no message and makes no network
    call.  The blank input returns first and changes nothing at all; the
    inline validation message is set when the credential is absent and the
    input is not blank. *)
Theorem rejected_submission remote st :
  Js.all_whitespace (inputValue st) = true \/ localApiKey st = "" ->
  let run := render (handleSubmit remote) st in
  outcome_of run = Resolved tt /\
  messages (state_of run) = messages st /\
  trace_of run = [] /\
  (Js.all_whitespace (inputValue st) = true -> state_of run = st) /\
  (Js.all_whitespace (inputValue st) = false ->
   error (state_of run) = Js.Str "Please provide an API key").
Proof.
  intros H run. subst run.
  enter_handleSubmit. rewrite trim_blank, negb_involutive.
  destruct (Js.all_whitespace (inputValue st)) eqn:Hblank.
  - cbn. repeat split; intros; try reflexivity; discriminate.
  - destruct H as [H|H]; [discriminate|]. rewrite H. cbn.
    repeat split; intros; try reflexivity; discriminate.
Qed.


(** C4. A credential arriving through the [apiKey] prop replaces the local
    credential and leaves the cached agent identifier in place, so the next
    invocation of the Provisioner, under the new credential, returns the
    identifier resolved under the old one without any network call. *)
Theorem apiKey_prop_keeps_cached_agent remote client st k id :
  Js.truthy_str k = true ->
  replicaUuid st = Some id ->
  id <> "" ->
  let st' := state_of (apiKeyEffect (Some k) st) in
  localApiKey st' = k /\
  replicaUuid st' = Some id /\
  render (fun closure => initializeSession remote closure client) st'
  = (Resolved id, st', []).
Proof.
  intros Hk Hc Hid st'. subst st'.
  unfold apiKeyEffect. rewrite Hk.
  cbn. split; [reflexivity|]. split; [exact Hc|].
  unfold render. apply initializeSession_cached; assumption.
Qed.

End Exchanger.

(** The cache is tested for truthiness, so an empty identifier counts as
    none: this is where the theorems on the Provisioner need the service's
    identifiers to be non-empty. *)
Lemma empty_identifier_not_cached st :
  cached (with_replicaUuid (Some "") st) = false.
Proof. reflexivity. Qed.

(** The credential field does reset the cache: after [handleApiKeyChange]
    nothing is cached, whatever was. *)
Lemma handleApiKeyChange_resets value st :
  handleApiKeyChange value st
  = (Resolved tt, with_replicaUuid None (with_localApiKey value st), []) /\
  cached (state_of (handleApiKeyChange value st)) = false.
Proof. split; reflexivity. Qed.


(** ** The theorems at work on the scenarios *)

Lemma accepted_hello : accepted Scenario.hello.
Proof. split; reflexivity. Defined.

Lemma provisioner_idempotent_witness :
  let client := Run.userClient Scenario.fresh Scenario.hello in
  let first :=
    render (fun closure => Run.initializeSession Scenario.fresh closure client)
           Scenario.hello in
  let second :=
    render (fun closure => Run.initializeSession Scenario.unauthorized closure client)
           (state_of first) in
  first = (Resolved "r-2", state_of first, trace_of first) /\
  "r-2" <> "" /\
  localApiKey (state_of first) = localApiKey Scenario.hello /\
  second = (Resolved "r-2", state_of first, []) /\
  count is_user_creation (trace_of first ++ trace_of second) <= 1 /\
  count is_agent_creation (trace_of first ++ trace_of second) <= 1.
Proof.
  cbv zeta.
  split; [reflexivity|]. split; [discriminate|].
  apply (provisioner_idempotent
           Scenario.USER_ID Scenario.SLUG Scenario.VERSION
           Scenario.fresh Scenario.unauthorized
           (Run.userClient Scenario.fresh Scenario.hello)
           (Run.userClient Scenario.fresh Scenario.hello)
           Scenario.hello); [reflexivity | discriminate].
Defined.

Lemma provisioner_steps_witness :
  let run :=
    Run.initializeSession Scenario.fresh Scenario.hello
      (Run.userClient Scenario.fresh Scenario.hello) Scenario.hello in
  cached Scenario.hello = false /\
  requests (trace_of run)
  = [GetV1Users (orgHeaders Scenario.hello) Scenario.USER_ID;
     PostV1Users (orgHeaders Scenario.hello) Scenario.VERSION
       (sampleUser Scenario.USER_ID);
     GetV1Replicas (Run.userHeaders Scenario.hello);
     PostV1Replicas (Run.userHeaders Scenario.hello) Scenario.VERSION
       (sampleReplica Scenario.USER_ID Scenario.SLUG)] /\
  outcome_of run = Resolved "r-2" /\
  state_of run = with_replicaUuid (Some "r-2") Scenario.hello.
Proof.
  cbv zeta. split; [reflexivity|].
  destruct (provisioner_steps
              Scenario.USER_ID Scenario.SLUG Scenario.VERSION
              Scenario.fresh Scenario.hello
              (Run.userClient Scenario.fresh Scenario.hello) Scenario.hello
              eq_refl) as (_ & _ & _ & Hcreate).
  destruct (Hcreate (or_intror eq_refl) (Some []) eq_refl eq_refl) as (Hreq & Hid).
  split; [exact Hreq|]. exact (Hid "r-2" eq_refl).
Defined.

Lemma successful_exchange_witness :
  let run := render (Run.handleSubmit Scenario.healthy) Scenario.hello in
  accepted Scenario.hello /\
  outcome_of run = Resolved tt /\
  messages (state_of run)
  = [ {| role := user; content := "Hello"; name := None |};
      {| role := assistant; content := "Hi there"; name := None |} ] /\
  isLoading (state_of run) = false /\
  exists before pending,
    trace_of run
    = before ++
      [Net (PostV1ReplicasChatCompletions (Run.userHeaders Scenario.hello)
              "r-1" Scenario.VERSION
              {| cb_content := "Hello"; source := "web"; skip_chat_history := false |})
           pending] /\
    Forall (provisioning_at (submitted Scenario.hello)) before /\
    messages pending
    = [ {| role := user; content := "Hello"; name := None |};
        {| role := assistant; content := ""; name := None |} ] /\
    isLoading pending = true.
Proof.
  cbv zeta. split; [exact accepted_hello|].
  apply (successful_exchange
           Scenario.USER_ID Scenario.SLUG Scenario.VERSION
           Scenario.healthy Scenario.hello "r-1" "Hi there");
    [exact accepted_hello | reflexivity | reflexivity].
Defined.

Lemma input_cleared_and_flag_released_witness :
  let run :=
    render (Run.handleSubmit
              (Scenario.failing_completion (Payload Run.status_only)))
           Scenario.hello in
  accepted Scenario.hello /\
  outcome_of run = Resolved tt /\
  Forall (after_submission Scenario.hello) (trace_of run) /\
  inputValue (state_of run) = "" /\
  isLoading (state_of run) = false.
Proof.
  cbv zeta. split; [exact accepted_hello|].
  apply (input_cleared_and_flag_released
           Scenario.USER_ID Scenario.SLUG Scenario.VERSION
           (Scenario.failing_completion (Payload Run.status_only)) Scenario.hello).
  exact accepted_hello.
Defined.

Lemma failed_exchange_transcript_witness :
  accepted Scenario.hello /\
  messages (state_of (render (Run.handleSubmit
                                (Scenario.failing_completion (Payload Run.status_only)))
                             Scenario.hello))
  = [ {| role := user; content := "Hello"; name := None |} ] /\
  messages (state_of (render (Run.handleSubmit Scenario.unauthorized) Scenario.hello))
  = [].
Proof.
  split; [exact accepted_hello|]. split.
  - apply (proj1 (failed_exchange_transcript
                    Scenario.USER_ID Scenario.SLUG Scenario.VERSION
                    (Scenario.failing_completion (Payload Run.status_only))
                    Scenario.hello accepted_hello)
             "r-1" (Payload Run.status_only)); reflexivity.
  - apply (proj2 (failed_exchange_transcript
                    Scenario.USER_ID Scenario.SLUG Scenario.VERSION
                    Scenario.unauthorized Scenario.hello accepted_hello)
             (ErrorInstance init_failed)); reflexivity.
Defined.



(** The first provisioning call is issued while the transcript holds the
    user message only and the in-progress flag is still false. *)
Lemma provisioning_call_before_placeholder :
  accepted Scenario.hello /\
  hd_error (trace_of (render (Run.handleSubmit Scenario.healthy) Scenario.hello))
  = Some (Net (GetV1Users (orgHeaders Scenario.hello) Scenario.USER_ID)
              (submitted Scenario.hello)) /\
  is_provisioning (GetV1Users (orgHeaders Scenario.hello) Scenario.USER_ID) = true /\
  messages (submitted Scenario.hello)
  = [ {| role := user; content := "Hello"; name := None |} ] /\
  isLoading (submitted Scenario.hello) = false.
Proof. split; [exact accepted_hello|]. repeat split. Qed.

Lemma rejected_submission_witness :
  let run := render (Run.handleSubmit Scenario.healthy) Run.no_credential in
  (Js.all_whitespace (inputValue Run.no_credential) = true \/
   localApiKey Run.no_credential = "") /\
  Js.all_whitespace (inputValue Run.no_credential) = false /\
  messages (state_of run) = messages Run.no_credential /\
  trace_of run = [] /\
  error (state_of run) = Js.Str "Please provide an API key".
Proof.
  cbv zeta. split; [right; reflexivity|]. split; [reflexivity|].
  destruct (rejected_submission
              Scenario.USER_ID Scenario.SLUG Scenario.VERSION
              Scenario.healthy Run.no_credential (or_intror eq_refl))
    as (_ & Hm & Ht & _ & He).
  split; [exact Hm|]. split; [exact Ht|]. exact (He eq_refl).
Defined.

(** With the credential absent and only spaces typed, the submission
    changes nothing, and no validation message is set. *)
Lemma blank_submission_without_credential :
  let run := render (Run.handleSubmit Scenario.healthy) Run.blank in
  localApiKey Run.blank = "" /\
  Js.all_whitespace (inputValue Run.blank) = true /\
  state_of run = Run.blank /\
  trace_of run = [] /\
  error (state_of run) = Js.Null.
Proof. cbv zeta. repeat split. Qed.

Lemma apiKey_prop_keeps_cached_agent_witness :
  let st' := state_of (apiKeyEffect (Some "other-secret") Run.provisioned) in
  Js.truthy_str "other-secret" = true /\
  replicaUuid Run.provisioned = Some "r-1" /\
  "r-1" <> "" /\
  localApiKey Run.provisioned = "secret" /\
  localApiKey st' = "other-secret" /\
  replicaUuid st' = Some "r-1" /\
  render (fun closure =>
            Run.initializeSession Scenario.unauthorized closure
              (Run.userClient Scenario.unauthorized Run.provisioned)) st'
  = (Resolved "r-1", st', []).
Proof.
  cbv zeta. split; [reflexivity|]. split; [reflexivity|].
  split; [discriminate|]. split; [reflexivity|].
  apply (apiKey_prop_keeps_cached_agent
           Scenario.USER_ID Scenario.SLUG Scenario.VERSION
           Scenario.unauthorized
           (Run.userClient Scenario.unauthorized Run.provisioned)
           Run.provisioned "other-secret" "r-1");
    [reflexivity | reflexivity | discriminate].
Defined.



(** The second end-to-end scenario of the specification: the completion
    call throws [{response: {status: 500, data: {message: "internal error"}}}];
    the transcript ends as [user:Hello] and [internal error] is displayed. *)
Example internal_error_scenario :
  let err :=
    Payload (Js.Obj [("response",
                      Js.Obj [("status", Js.Num 500);
                              ("data", Js.Obj [("message", Js.Str "internal error")])])]) in
  let run := render (Run.handleSubmit (Scenario.failing_completion err)) Scenario.hello in
  messages (state_of run) = [ {| role := user; content := "Hello"; name := None |} ] /\
  error (state_of run) = Js.Str "internal error" /\
  isLoading (state_of run) = false.
Proof. cbv zeta. repeat split. Qed.

(** ** Rendering a message *)

Lemma split_cons (s : string) (sep : ascii) :
  exists piece pieces, Js.split s sep = piece :: pieces.
Proof.
  induction s as [|c rest IH]; cbn [Js.split].
  - eauto.
  - destruct (Ascii.eqb c sep); [eauto|].
    destruct IH as (piece & pieces & ->). eauto.
Qed.

Lemma join_cons_char (sep : string) (c : ascii) (piece : string) (pieces : list string) :
  Js.join sep (String c piece :: pieces) = String c (Js.join sep (piece :: pieces)).
Proof. destruct pieces; reflexivity. Qed.

Lemma join_split (s : string) (sep : ascii) :
  Js.join (String sep "") (Js.split s sep) = s.
Proof.
  induction s as [|c rest IH]; cbn [Js.split]; [reflexivity|].
  destruct (Ascii.eqb_spec c sep) as [->|Hc].
  - destruct (split_cons rest sep) as (piece & pieces & E).
    rewrite E in IH |- *. cbn [Js.join]. cbn [String.append].
    f_equal. exact IH.
  - destruct (split_cons rest sep) as (piece & pieces & E).
    rewrite E in IH |- *. rewrite join_cons_char. f_equal. exact IH.
Qed.

Lemma length_split (s : string) (sep : ascii) :
  length (Js.split s sep) = S (Js.occurrences sep s).
Proof.
  induction s as [|c rest IH]; cbn [Js.split Js.occurrences]; [reflexivity|].
  destruct (Ascii.eqb c sep); cbn [length].
  - rewrite IH. reflexivity.
  - destruct (split_cons rest sep) as (piece & pieces & E).
    rewrite E in IH |- *. exact IH.
Qed.

Lemma split_pieces_clean (s : string) (sep : ascii) :
  Forall (fun piece => Js.occurrences sep piece = 0) (Js.split s sep).
Proof.
  induction s as [|c rest IH]; cbn [Js.split].
  - repeat constructor.
  - destruct (Ascii.eqb c sep) eqn:Hc.
    + constructor; [reflexivity | exact IH].
    + destruct (split_cons rest sep) as (piece & pieces & E).
      rewrite E in IH |- *. inversion IH as [|? ? Hp Hps]; subst.
      constructor; [|exact Hps].
      cbn [Js.occurrences]. rewrite Hc, Hp. reflexivity.
Qed.

Lemma map_indexed_lines (l : list string) (i : nat) :
  map line (map_indexed (fun line i => {| span_key := i; line := line |}) i l) = l /\
  map span_key (map_indexed (fun line i => {| span_key := i; line := line |}) i l)
  = seq i (length l).
Proof.
  revert i. induction l as [|x rest IH]; intros i; cbn [map_indexed map length seq].
  - split; reflexivity.
  - destruct (IH (S i)) as [Hl Hk]. rewrite Hl, Hk. split; reflexivity.
Qed.

(** X1. Rendering loses nothing: the lines of the spans [formatMessage]
    produces, put together again with a line feed between them, are the
    content of the message. *)
Theorem formatMessage_lines (content : string) :
  Js.join (String Js.newline "") (map line (formatMessage content)) = content.
Proof.
  unfold formatMessage.
  rewrite (proj1 (map_indexed_lines _ 0)).
  apply join_split.
Qed.

(** X2. [formatMessage] gives one span more than the content has line
    feeds (one span for an empty content), keyed 0, 1, 2, ... in order, and
    no span holds a line feed. *)
Theorem formatMessage_spans (content : string) :
  length (formatMessage content) = S (Js.occurrences Js.newline content) /\
  map span_key (formatMessage content)
  = seq 0 (S (Js.occurrences Js.newline content)) /\
  Forall (fun span => Js.occurrences Js.newline (line span) = 0)
         (formatMessage content).
Proof.
  unfold formatMessage.
  destruct (map_indexed_lines (Js.split content Js.newline) 0) as [Hl Hk].
  split; [|split].
  - rewrite <- (length_map span_key), Hk, length_seq. apply length_split.
  - rewrite Hk, length_split. reflexivity.
  - apply Forall_forall. intros span Hin.
    pose proof (split_pieces_clean content Js.newline) as Hclean.
    rewrite Forall_forall in Hclean. apply Hclean.
    rewrite <- Hl. apply in_map. exact Hin.
Qed.

(** ** More on the Provisioner and the Exchanger *)

Lemma number_to_string_nonempty (n : Z) : Js.number_to_string n <> "".
Proof.
  unfold Js.number_to_string, NilZero.string_of_int, NilZero.string_of_uint.
  destruct (Z.to_int n) as [d|d]; [|discriminate].
  destruct d; cbn; discriminate.
Qed.

Lemma stringify_nonempty (v : Js.value) : Js.stringify v <> "".
Proof.
  destruct v as [| |[|]|n|s|fields|elems]; cbn [Js.stringify]; try discriminate.
  apply number_to_string_nonempty.
Qed.

Lemma truthy_str_nonempty (s : string) : s <> "" -> Js.truthy (Js.Str s) = true.
Proof. exact (nonempty_truthy s). Qed.

(** Whatever is thrown, unless it is an [Error] instance, the extracted
    message is truthy. *)
Lemma errorMessage_payload_truthy (v : Js.value) :
  Js.truthy (errorMessage (Payload v)) = true.
Proof.
  unfold errorMessage. rewrite !get_opt_get.
  destruct (Js.is_object v); [|reflexivity].
  destruct (Js.truthy (Js.get (Js.get v "error") "message")) eqn:E1; [exact E1|].
  destruct (Js.truthy (Js.get v "error")) eqn:E2.
  { destruct (Js.is_string (Js.get v "error")); [exact E2|].
    apply truthy_str_nonempty, stringify_nonempty. }
  destruct (Js.truthy (Js.get v "message")) eqn:E3; [exact E3|].
  destruct (Js.truthy (Js.get (Js.get v "response") "data")) eqn:E4; [|reflexivity].
  cbv zeta.
  destruct (Js.truthy (Js.get (Js.get (Js.get (Js.get v "response") "data") "error")
                              "message")) eqn:E5; [exact E5|].
  destruct (Js.truthy (Js.get (Js.get (Js.get v "response") "data") "message")) eqn:E6;
    [exact E6|].
  destruct (Js.is_string (Js.get (Js.get v "response") "data")); [exact E4|].
  reflexivity.
Qed.

Section More.

Context (SAMPLE_USER_ID SAMPLE_REPLICA_SLUG API_VERSION : string).

Local Abbreviation initializeSession :=
  (initializeSession SAMPLE_USER_ID SAMPLE_REPLICA_SLUG API_VERSION).
Local Abbreviation handleSubmit :=
  (handleSubmit SAMPLE_USER_ID SAMPLE_REPLICA_SLUG API_VERSION).
Local Abbreviation handleKeyDown :=
  (handleKeyDown SAMPLE_USER_ID SAMPLE_REPLICA_SLUG API_VERSION).
Local Abbreviation converse :=
  (converse SAMPLE_USER_ID SAMPLE_REPLICA_SLUG API_VERSION).
Local Abbreviation userHeaders := (userHeaders SAMPLE_USER_ID).
Local Abbreviation userClient := (userClient SAMPLE_USER_ID).
Local Abbreviation sampleUser := (sampleUser SAMPLE_USER_ID).
Local Abbreviation sampleReplica := (sampleReplica SAMPLE_USER_ID SAMPLE_REPLICA_SLUG).
Local Abbreviation user_step := (user_step SAMPLE_USER_ID API_VERSION).
Local Abbreviation user_ready := (user_ready SAMPLE_USER_ID API_VERSION).
Local Abbreviation demo_agent := (demo_agent SAMPLE_REPLICA_SLUG).
Local Abbreviation addressed_from := (addressed_from SAMPLE_USER_ID).
Local Abbreviation completion_for := (completion_for SAMPLE_USER_ID API_VERSION).

Lemma handleSubmit_blank remote st :
  Js.truthy_str (Js.trim (inputValue st)) = false ->
  render (handleSubmit remote) st = (Resolved tt, st, []).
Proof. intros H. enter_handleSubmit. rewrite H. reflexivity. Qed.

Lemma handleSubmit_no_key remote st :
  Js.truthy_str (Js.trim (inputValue st)) = true ->
  Js.truthy_str (localApiKey st) = false ->
  render (handleSubmit remote) st
  = (Resolved tt, with_error (Js.Str "Please provide an API key") st, []).
Proof. intros H1 H2. enter_handleSubmit. rewrite H1, H2. reflexivity. Qed.

(** The three ways a submission can go. *)
Lemma handleSubmit_guards remote st :
  (Js.truthy_str (Js.trim (inputValue st)) = false /\
   render (handleSubmit remote) st = (Resolved tt, st, [])) \/
  (Js.truthy_str (Js.trim (inputValue st)) = true /\
   Js.truthy_str (localApiKey st) = false /\
   render (handleSubmit remote) st
   = (Resolved tt, with_error (Js.Str "Please provide an API key") st, [])) \/
  accepted st.
Proof.
  destruct (Js.truthy_str (Js.trim (inputValue st))) eqn:H1.
  - destruct (Js.truthy_str (localApiKey st)) eqn:H2.
    + right. right. split; assumption.
    + right. left. auto using handleSubmit_no_key.
  - left. auto using handleSubmit_blank.
Qed.

(** The calls of the Provisioner: at most four, each under the credential
    of the closure, the user calls without a user identifier. *)
Lemma initializeSession_requests remote closure client s :
  forall t, t = trace_of (initializeSession remote closure client s) ->
  length (requests t) <= 4 /\
  Forall (addressed_from closure) (requests t) /\
  Forall (fun req => is_completion req = false) (requests t).
Proof.
  destruct (cached closure) eqn:Hc.
  - destruct (initializeSession_when_cached SAMPLE_USER_ID SAMPLE_REPLICA_SLUG
                API_VERSION remote closure client s Hc) as (id & _ & _ & ->).
    intros t ->. cbn. repeat split; auto.
  - rewrite (initializeSession_uncached SAMPLE_USER_ID SAMPLE_REPLICA_SLUG
               API_VERSION remote closure client s Hc).
    run_cases; intros t ->; cbn [app requests length];
      (split; [lia|]); split; repeat constructor.
Qed.

(** The state an accepted submission ends in, by what the Provisioner and
    the completion call answered. *)
Lemma handleSubmit_summary remote st :
  accepted st ->
  let run := render (handleSubmit remote) st in
  outcome_of run = Resolved tt /\
  inputValue (state_of run) = "" /\
  isLoading (state_of run) = false /\
  localApiKey (state_of run) = localApiKey st /\
  showConfig (state_of run) = showConfig st /\
  match outcome_of (initializeSession remote st (userClient remote st) st) with
  | Resolved id =>
      replicaUuid (state_of run) = Some id /\
      match postV1ReplicasChatCompletions remote (userHeaders st) id API_VERSION
              (completionBody st) with
      | Resolved text =>
          messages (state_of run) = messages st ++ [userMessage st; reply text] /\
          error (state_of run) = Js.Null
      | Rejected err =>
          messages (state_of run) = messages st ++ [userMessage st] /\
          error (state_of run) = errorMessage err
      end
  | Rejected e =>
      cached st = false /\
      replicaUuid (state_of run) = replicaUuid st /\
      messages (state_of run) = messages st /\
      error (state_of run) = Js.Str init_failed
  end.
Proof.
  intros Hacc run. subst run.
  rewrite (handleSubmit_accepted SAMPLE_USER_ID SAMPLE_REPLICA_SLUG API_VERSION
             remote st Hacc).
  destruct (initializeSession remote st _ (submitted st)) as [[o s2] t1] eqn:Hrun.
  destruct (provisioner_within_submit SAMPLE_USER_ID SAMPLE_REPLICA_SLUG API_VERSION
              _ _ _ _ _ Hrun) as (Ho & _ & Hst).
  pose proof (initializeSession_state SAMPLE_USER_ID SAMPLE_REPLICA_SLUG API_VERSION
                _ _ _ _ _ _ _ Hrun) as Hcache.
  rewrite <- Ho. destruct o as [id|e].
  - assert (replicaUuid s2 = Some id) as Hid.
    { destruct Hcache as [(Hc & _ & -> & _) | (_ & ->)]; [exact Hc | reflexivity]. }
    assert (inputValue s2 = "" /\ messages s2 = messages st ++ [userMessage st] /\
            localApiKey s2 = localApiKey st /\ showConfig s2 = showConfig st /\
            error s2 = Js.Null)
      as (Hi & Hm & Hk & Hs & He)
        by (destruct Hst as [-> | ->]; repeat split).
    cbv zeta.
    destruct (postV1ReplicasChatCompletions remote _ id API_VERSION _) as [text|err];
      cbn [outcome_of state_of fst snd
           messages inputValue isLoading error localApiKey showConfig replicaUuid
           with_messages with_isLoading with_error].
    + rewrite set_last_app, Hm, <- app_assoc. repeat split; try assumption; reflexivity.
    + rewrite slice_drop_last. repeat split; try assumption; reflexivity.
  - destruct Hst as (-> & -> & _).
    assert (cached st = false) as Hc.
    { destruct (cached st) eqn:Hc; [|reflexivity].
      destruct (initializeSession_when_cached SAMPLE_USER_ID SAMPLE_REPLICA_SLUG
                  API_VERSION remote st (userClient remote st) (submitted st) Hc)
        as (id & _ & _ & Hhit).
      rewrite Hhit in Hrun. discriminate. }
    cbn [outcome_of state_of fst snd
         messages inputValue isLoading error localApiKey showConfig replicaUuid
         with_messages with_isLoading with_error with_inputValue submitted errorMessage].
    rewrite slice_drop_last. repeat split. exact Hc.
Qed.

(** X3. Only a plain Enter submits.  With Shift held, or for any other
    key, [handleKeyDown] changes nothing, calls nothing and leaves the key
    to the textarea; on a plain Enter it does exactly what submitting the
    form does and suppresses the new line. *)
Theorem handleKeyDown_plain_enter_only remote st e :
  (key e = "Enter" /\ shiftKey e = false ->
   render (fun closure => handleKeyDown remote closure e) st
   = (Resolved true,
      state_of (render (handleSubmit remote) st),
      trace_of (render (handleSubmit remote) st))) /\
  (key e <> "Enter" \/ shiftKey e = true ->
   render (fun closure => handleKeyDown remote closure e) st
   = (Resolved false, st, [])).
Proof.
  unfold render at 1 4. enter_handleKeyDown. split.
  - intros [-> ->]. rewrite String.eqb_refl. cbn [andb negb].
    assert (outcome_of (render (handleSubmit remote) st) = Resolved tt) as Hok.
    { destruct (handleSubmit_guards remote st) as [[_ ->] | [(_ & _ & ->) | Hacc]];
        [reflexivity | reflexivity | apply (handleSubmit_summary remote st Hacc)]. }
    unfold render in Hok |- *. unfold bind, ret.
    destruct (handleSubmit remote st st) as [[o s1] t1].
    cbn [outcome_of fst] in Hok. subst o.
    cbn [state_of trace_of fst snd]. rewrite app_nil_r. reflexivity.
  - intros [Hk | Hs].
    + destruct (String.eqb_spec (key e) "Enter"); [contradiction | reflexivity].
    + rewrite Hs, andb_false_r. reflexivity.
Qed.

(** X4. A submission never rewrites history: whatever the input, the
    credential and the service's answers, the transcript it leaves is the
    one it found followed by nothing, by the user message, or by the user
    message and the reply. *)
Theorem transcript_only_grows remote st :
  exists added,
    messages (state_of (render (handleSubmit remote) st)) = messages st ++ added /\
    (added = [] \/ added = [userMessage st] \/
     exists text, added = [userMessage st; reply text]).
Proof.
  destruct (handleSubmit_guards remote st) as [[_ ->] | [(_ & _ & ->) | Hacc]].
  - exists []. cbn. rewrite app_nil_r. auto.
  - exists []. cbn. rewrite app_nil_r. auto.
  - destruct (handleSubmit_summary remote st Hacc) as (_ & _ & _ & _ & _ & H).
    destruct (outcome_of (initializeSession remote st (userClient remote st) st))
      as [id|e].
    + destruct H as [_ H].
      destruct (postV1ReplicasChatCompletions remote _ id API_VERSION _) as [text|err];
        destruct H as [-> _]; eauto 6.
    + destruct H as (_ & _ & -> & _). exists []. rewrite app_nil_r. auto.
Qed.

(** X5. A submission never touches the credential nor the visibility of
    the configuration panel; it clears the input field when it is accepted
    and keeps the typed text when it is rejected. *)
Theorem submission_frame remote st :
  let final := state_of (render (handleSubmit remote) st) in
  localApiKey final = localApiKey st /\
  showConfig final = showConfig st /\
  (accepted st -> inputValue final = "") /\
  (~ accepted st -> inputValue final = inputValue st).
Proof.
  cbv zeta.
  destruct (handleSubmit_guards remote st) as [[Hb ->] | [(Hb & Hk & ->) | Hacc]].
  - cbn. repeat split. intros [H _]. congruence.
  - cbn. repeat split. intros [_ H]. congruence.
  - destruct (handleSubmit_summary remote st Hacc) as (_ & Hi & _ & Hk & Hs & _).
    repeat split; intros; try assumption; contradiction.
Qed.

(** X6. What an accepted submission leaves in the cache.  Once the
    Provisioner has returned an identifier it is cached, also when the
    completion call then fails; when the Provisioner fails the cache is left
    as it was, which is empty, so the next submission provisions again. *)
Theorem cache_after_submission remote st :
  accepted st ->
  let final := state_of (render (handleSubmit remote) st) in
  (forall id,
      outcome_of (initializeSession remote st (userClient remote st) st) = Resolved id ->
      replicaUuid final = Some id) /\
  (forall e,
      outcome_of (initializeSession remote st (userClient remote st) st) = Rejected e ->
      replicaUuid final = replicaUuid st /\ cached final = false).
Proof.
  intros Hacc final. subst final.
  destruct (handleSubmit_summary remote st Hacc) as (_ & _ & _ & _ & _ & H).
  split.
  - intros id Hid. rewrite Hid in H. apply H.
  - intros e He. rewrite He in H. destruct H as (Hc & Hr & _).
    split; [exact Hr|]. unfold cached in *. rewrite Hr. exact Hc.
Qed.

(** X7. With an identifier cached, an accepted submission costs exactly one
    network call: the completion call, addressed to the cached agent. *)
Theorem cached_exchange_single_call remote st id :
  accepted st ->
  replicaUuid st = Some id ->
  id <> "" ->
  requests (trace_of (render (handleSubmit remote) st))
  = [completion_for st id (inputValue st)].
Proof.
  intros Hacc Hc Hid.
  rewrite (handleSubmit_accepted SAMPLE_USER_ID SAMPLE_REPLICA_SLUG API_VERSION
             remote st Hacc).
  rewrite (initializeSession_cached SAMPLE_USER_ID SAMPLE_REPLICA_SLUG API_VERSION
             remote st (userClient remote st) (submitted st) id Hc Hid).
  cbv zeta.
  destruct (postV1ReplicasChatCompletions remote _ id API_VERSION _) as [text|err];
    reflexivity.
Qed.

(** X8. Every network call of a submission is made under the credential of
    the state it was submitted from; the user lookup and creation carry no
    user identifier, the agent and completion calls carry the demo user's. *)
Theorem requests_addressed remote st :
  Forall (addressed_from st) (requests (trace_of (render (handleSubmit remote) st))).
Proof.
  destruct (handleSubmit_guards remote st) as [[_ ->] | [(_ & _ & ->) | Hacc]];
    [constructor | constructor |].
  rewrite (handleSubmit_accepted SAMPLE_USER_ID SAMPLE_REPLICA_SLUG API_VERSION
             remote st Hacc).
  pose proof (initializeSession_requests remote st (userClient remote st) (submitted st)
                _ eq_refl) as (_ & Hprov & _).
  destruct (initializeSession remote st _ (submitted st)) as [[[id|e] s2] t1].
  - cbv zeta.
    destruct (postV1ReplicasChatCompletions remote _ id API_VERSION _) as [text|err];
      cbn [trace_of snd] in *; rewrite requests_app; apply Forall_app;
      (split; [exact Hprov|]); repeat constructor.
  - cbn [trace_of snd] in *. rewrite requests_app, app_nil_r. exact Hprov.
Qed.

(** X9. One submission makes at most five network calls: at most four
    provisioning calls and at most one completion call. *)
Theorem submission_call_bound remote st :
  let t := trace_of (render (handleSubmit remote) st) in
  length (requests t) <= 5 /\
  count is_provisioning t <= 4 /\
  count is_completion t <= 1.
Proof.
  cbv zeta.
  destruct (handleSubmit_guards remote st) as [[_ ->] | [(_ & _ & ->) | Hacc]];
    [cbn; lia | cbn; lia |].
  rewrite (handleSubmit_accepted SAMPLE_USER_ID SAMPLE_REPLICA_SLUG API_VERSION
             remote st Hacc).
  pose proof (initializeSession_requests remote st (userClient remote st) (submitted st)
                _ eq_refl) as (Hlen & _ & Hprov).
  assert (forall l, Forall (fun req => is_completion req = false) l ->
                    length (filter is_completion l) = 0 /\
                    length (filter is_provisioning l) = length l) as Hcount.
  { induction l as [|req l IH]; intros Hall; [split; reflexivity|].
    inversion Hall as [|? ? Hreq Hrest]; subst.
    destruct (IH Hrest) as [IH1 IH2].
    unfold is_provisioning in *. cbn [filter]. rewrite Hreq. cbn [negb length].
    rewrite IH2. split; [exact IH1 | reflexivity]. }
  destruct (initializeSession remote st _ (submitted st)) as [[[id|e] s2] t1];
    cbn [trace_of snd] in Hlen, Hprov; destruct (Hcount _ Hprov) as [Hc Hp].
  - cbv zeta.
    destruct (postV1ReplicasChatCompletions remote _ id API_VERSION _) as [text|err];
      cbn [trace_of snd]; unfold count; rewrite !requests_app, !filter_app, !length_app;
      cbn [requests filter is_completion is_provisioning negb length];
      rewrite Hc, Hp; lia.
  - cbn [trace_of snd]. unfold count. rewrite !requests_app, !filter_app, !length_app.
    cbn [requests filter length]. rewrite Hc, Hp. lia.
Qed.

(** X10. The error state after a failed exchange.  When the Provisioner
    fails it is the fixed initialization message.  When the completion call
    throws anything that is not an [Error] instance it is truthy, so the
    test [error &&] in front of the banner passes.  When the completion call
    throws an [Error] instance it is that instance's message, which is
    truthy exactly when the message is not empty. *)
Theorem failure_sets_error remote st :
  accepted st ->
  let final := state_of (render (handleSubmit remote) st) in
  (forall e,
      outcome_of (initializeSession remote st (userClient remote st) st) = Rejected e ->
      error final = Js.Str init_failed /\ Js.truthy (error final) = true) /\
  (forall id v,
      outcome_of (initializeSession remote st (userClient remote st) st) = Resolved id ->
      postV1ReplicasChatCompletions remote (userHeaders st) id API_VERSION
        (completionBody st) = Rejected (Payload v) ->
      Js.truthy (error final) = true) /\
  (forall id message,
      outcome_of (initializeSession remote st (userClient remote st) st) = Resolved id ->
      postV1ReplicasChatCompletions remote (userHeaders st) id API_VERSION
        (completionBody st) = Rejected (ErrorInstance message) ->
      error final = Js.Str message /\
      Js.truthy (error final) = negb (message =? "")).
Proof.
  intros Hacc final. subst final.
  destruct (handleSubmit_summary remote st Hacc) as (_ & _ & _ & _ & _ & H).
  split; [|split].
  - intros e He. rewrite He in H. destruct H as (_ & _ & _ & ->). split; reflexivity.
  - intros id v Hid Hc. rewrite Hid, Hc in H. destruct H as (_ & _ & ->).
    apply errorMessage_payload_truthy.
  - intros id message Hid Hc. rewrite Hid, Hc in H. destruct H as (_ & _ & ->).
    split; reflexivity.
Qed.

(** X11. After an accepted submission the error cell is [null] exactly when
    the exchange succeeded: an error shown before is cleared by a success,
    and every failure writes something else than [null]. *)
Theorem error_null_iff_success remote st :
  accepted st ->
  error (state_of (render (handleSubmit remote) st)) = Js.Null <->
  exists id text,
    outcome_of (initializeSession remote st (userClient remote st) st) = Resolved id /\
    postV1ReplicasChatCompletions remote (userHeaders st) id API_VERSION
      (completionBody st) = Resolved text.
Proof.
  intros Hacc.
  destruct (handleSubmit_summary remote st Hacc) as (_ & _ & _ & _ & _ & H).
  destruct (outcome_of (initializeSession remote st (userClient remote st) st))
    as [id|e].
  - destruct H as [_ H].
    destruct (postV1ReplicasChatCompletions remote _ id API_VERSION _)
      as [text|err] eqn:Hc.
    + destruct H as [_ ->]. split; [eauto|reflexivity].
    + destruct H as [_ ->]. split.
      * intros Hnull. exfalso. destruct err as [message|v].
        -- discriminate Hnull.
        -- pose proof (errorMessage_payload_truthy v) as Ht.
           rewrite Hnull in Ht. discriminate.
      * intros (id' & text & [= <-] & Hres). congruence.
  - destruct H as (_ & _ & _ & ->). split; [discriminate|].
    intros (id & text & Hid & _). discriminate.
Qed.

(** X12. In the state an accepted submission ends in, whether it succeeded
    or failed, the expression of the send button's [disabled] attribute
    evaluates to true (the flag is released, the input is empty) and the
    expression of the textarea's evaluates to false. *)
Theorem controls_after_submission remote st :
  accepted st ->
  let final := state_of (render (handleSubmit remote) st) in
  submitDisabled final = true /\ textareaDisabled final = false.
Proof.
  intros Hacc final. subst final.
  destruct (handleSubmit_summary remote st Hacc) as (_ & Hi & Hl & _).
  unfold submitDisabled, textareaDisabled. rewrite Hi, Hl. split; reflexivity.
Qed.

(** An uncached run of the Provisioner starts with the user lookup. *)
Lemma initializeSession_first_call remote closure client s :
  cached closure = false ->
  exists rest,
    trace_of (initializeSession remote closure client s)
    = Net (GetV1Users (orgHeaders closure) SAMPLE_USER_ID) s :: rest.
Proof.
  intros Hc.
  rewrite (initializeSession_uncached SAMPLE_USER_ID SAMPLE_REPLICA_SLUG
             API_VERSION remote closure client s Hc).
  enter_shapes. run_cases; cbn [app]; eexists; reflexivity.
Qed.

(** C6 (amended). The order of an accepted submission.  The user message
    is appended and the input cleared first.  Then the Provisioner runs:
    unless an agent is cached it issues its network calls, the user lookup
    first, and every one of them sees that transcript, without a
    placeholder, and the in-progress flag as it was before the submission.
    Only when the Provisioner has returned an identifier are the placeholder
    appended and the in-progress flag set, and the completion call is issued
    after that, to the identifier returned, seeing both; it is the last
    network call.  When the Provisioner fails no completion call is issued. *)
Theorem exchange_order remote st :
  accepted st ->
  exists provisioning completion,
    trace_of (render (handleSubmit remote) st) = provisioning ++ completion /\
    Forall (provisioning_at (submitted st)) provisioning /\
    Forall (awaiting_completion st) completion /\
    (messages (submitted st) = messages st ++ [userMessage st] /\
     inputValue (submitted st) = "" /\
     isLoading (submitted st) = isLoading st) /\
    (cached st = false ->
     exists rest,
       provisioning
       = Net (GetV1Users (orgHeaders st) SAMPLE_USER_ID) (submitted st) :: rest) /\
    (cached st = true -> provisioning = []) /\
    (forall id,
        outcome_of (initializeSession remote st (userClient remote st) st) = Resolved id ->
        exists pending rest,
          completion
          = Net (PostV1ReplicasChatCompletions (userHeaders st) id API_VERSION
                   (completionBody st)) pending :: rest /\
          messages pending = messages st ++ [userMessage st; placeholder] /\
          isLoading pending = true /\
          requests rest = []) /\
    (forall e,
        outcome_of (initializeSession remote st (userClient remote st) st) = Rejected e ->
        requests completion = []).
Proof.
  intros Hacc.
  rewrite (handleSubmit_accepted SAMPLE_USER_ID SAMPLE_REPLICA_SLUG API_VERSION
             remote st Hacc).
  assert (cached st = false ->
          exists rest,
            trace_of (initializeSession remote st (userClient remote st) (submitted st))
            = Net (GetV1Users (orgHeaders st) SAMPLE_USER_ID) (submitted st) :: rest)
    as Hfirst by apply initializeSession_first_call.
  assert (cached st = true ->
          trace_of (initializeSession remote st (userClient remote st) (submitted st)) = [])
    as Hnone.
  { intros Hc.
    destruct (initializeSession_when_cached SAMPLE_USER_ID SAMPLE_REPLICA_SLUG
                API_VERSION remote st (userClient remote st) (submitted st) Hc)
      as (id & _ & _ & ->). reflexivity. }
  destruct (initializeSession remote st _ (submitted st)) as [[o s2] t1] eqn:Hrun.
  destruct (provisioner_within_submit SAMPLE_USER_ID SAMPLE_REPLICA_SLUG API_VERSION
              _ _ _ _ _ Hrun) as (Ho & Htr & Hst).
  cbn [trace_of snd] in Hfirst, Hnone. rewrite <- Ho.
  exists t1. destruct o as [id|e].
  - assert (messages s2 = messages st ++ [userMessage st]) as Hm
        by (destruct Hst as [-> | ->]; reflexivity).
    assert (messages (with_isLoading true (with_messages (messages s2 ++ [placeholder]) s2))
            = messages st ++ [userMessage st; placeholder]) as Hp
        by (cbn [messages with_isLoading with_messages];
            rewrite Hm, <- app_assoc; reflexivity).
    cbv zeta.
    destruct (postV1ReplicasChatCompletions remote _ id API_VERSION _) as [text|err];
      eexists; (split; [reflexivity|]); (split; [exact Htr|]);
      (split; [repeat (apply Forall_cons; [first [exact I | cbn; rewrite Hm, <- app_assoc; repeat split] |]); apply Forall_nil|]);
      (split; [repeat split|]); (split; [exact Hfirst|]); (split; [exact Hnone|]);
      (split; [|discriminate]);
      intros id' [= <-]; eexists; eexists; (split; [reflexivity|]);
      (split; [exact Hp|]); split; reflexivity.
  - eexists. split; [reflexivity|]. split; [exact Htr|].
    split; [repeat constructor|]. split; [repeat split|].
    split; [exact Hfirst|]. split; [exact Hnone|].
    split; [discriminate | reflexivity].
Qed.

(** X13. Typing a credential into the configuration field forces the next
    submission to provision again, whatever was cached: the submission runs
    under the new credential and its first network call is the user lookup
    with that credential. *)
Theorem field_change_reprovisions remote st value :
  let st' := state_of (handleApiKeyChange value st) in
  accepted st' ->
  localApiKey st' = value /\
  hd_error (requests (trace_of (render (handleSubmit remote) st')))
  = Some (GetV1Users {| X_ORGANIZATION_SECRET := value; X_USER_ID := None |}
                     SAMPLE_USER_ID).
Proof.
  intros st' Hacc. split; [reflexivity|].
  rewrite (handleSubmit_accepted SAMPLE_USER_ID SAMPLE_REPLICA_SLUG API_VERSION
             remote st' Hacc).
  assert (cached st' = false) as Hc by reflexivity.
  destruct (initializeSession_first_call remote st' (userClient remote st')
              (submitted st') Hc) as (rest & Hfirst).
  destruct (initializeSession remote st' _ (submitted st')) as [[[id|e] s2] t1];
    cbn [trace_of snd] in Hfirst; subst t1.
  - cbv zeta.
    destruct (postV1ReplicasChatCompletions remote _ id API_VERSION _); reflexivity.
  - reflexivity.
Qed.

(** One turn of a conversation with the agent cached and the completion
    call answering. *)
Lemma converse_turn remote st id text reply :
  Js.truthy_str (localApiKey st) = true ->
  replicaUuid st = Some id ->
  id <> "" ->
  Js.all_whitespace text = false ->
  postV1ReplicasChatCompletions remote (userHeaders st) id API_VERSION
    {| cb_content := text; source := "web"; skip_chat_history := false |}
  = Resolved reply ->
  exists s' t,
    render (handleSubmit remote) (with_inputValue text st) = (Resolved tt, s', t) /\
    messages s'
    = messages st ++ exchange {| typed := text; answering := remote; replied := reply |} /\
    requests t = [completion_for st id text] /\
    replicaUuid s' = Some id /\
    localApiKey s' = localApiKey st /\
    isLoading s' = false.
Proof.
  intros Hkey Hc Hid Htext Hans.
  assert (accepted (with_inputValue text st)) as Hacc.
  { split; [|exact Hkey]. cbn [inputValue with_inputValue].
    rewrite trim_blank, Htext. reflexivity. }
  rewrite (handleSubmit_accepted SAMPLE_USER_ID SAMPLE_REPLICA_SLUG API_VERSION
             remote _ Hacc).
  rewrite (initializeSession_cached SAMPLE_USER_ID SAMPLE_REPLICA_SLUG API_VERSION
             remote (with_inputValue text st) _ _ id Hc Hid).
  cbv zeta.
  change (postV1ReplicasChatCompletions remote (userHeaders (with_inputValue text st))
            id API_VERSION (completionBody (with_inputValue text st)))
    with (postV1ReplicasChatCompletions remote (userHeaders st) id API_VERSION
            {| cb_content := text; source := "web"; skip_chat_history := false |}).
  rewrite Hans. eexists. eexists. split; [reflexivity|].
  cbn [messages replicaUuid localApiKey isLoading
       with_messages with_isLoading with_inputValue with_error submitted].
  rewrite set_last_app, <- app_assoc.
  repeat split; try assumption; reflexivity.
Qed.

Lemma converse_cons text remote rest st :
  converse ((text, remote) :: rest) st
  = match render (handleSubmit remote) (with_inputValue text st) with
    | (Resolved _, s1, t1) =>
        match converse rest s1 with
        | (r, s2, t2) => (r, s2, t1 ++ t2)
        end
    | (Rejected e, s1, t1) => (Rejected e, s1, t1)
    end.
Proof.
  enter_converse_step. unfold bind, handleInputChange, setInputValue, modify.
  destruct (render (handleSubmit remote) (with_inputValue text st)) as [[[[]|e] s1] t1];
    [|reflexivity].
  destruct (converse rest s1) as [[r s2] t2]. reflexivity.
Qed.

(** X14. A conversation with the agent cached.  Take any turns, each with
    the text typed, the service as it stands at that turn and the reply
    that service's completion call resolves to for that text; the service,
    and with it the reply to a given text, may change from turn to turn.
    When every text has something other than white space in it, the
    conversation leaves the transcript it found followed, turn by turn, by
    the user's text and that turn's reply; it makes one network call per
    turn, the completion call for that text; and it keeps the credential
    and the cached agent. *)
Theorem conversation (turns : list Turn) : forall st id,
  Js.truthy_str (localApiKey st) = true ->
  replicaUuid st = Some id ->
  id <> "" ->
  Forall (fun t =>
            Js.all_whitespace (typed t) = false /\
            postV1ReplicasChatCompletions (answering t) (userHeaders st) id API_VERSION
              {| cb_content := typed t; source := "web"; skip_chat_history := false |}
            = Resolved (replied t)) turns ->
  let run := converse (map (fun t => (typed t, answering t)) turns) st in
  outcome_of run = Resolved tt /\
  messages (state_of run) = messages st ++ flat_map exchange turns /\
  requests (trace_of run) = map (fun t => completion_for st id (typed t)) turns /\
  replicaUuid (state_of run) = Some id /\
  localApiKey (state_of run) = localApiKey st.
Proof.
  induction turns as [|[text remote reply] rest IH]; intros st id Hkey Hc Hid Hturns run;
    subst run.
  - cbn. rewrite app_nil_r. auto.
  - inversion Hturns as [|? ? [Htext Hans] Hrest]; subst.
    cbn [typed answering replied] in Htext, Hans.
    destruct (converse_turn remote st id text reply Hkey Hc Hid Htext Hans)
      as (s' & t & Hrun & Hm & Hreq & Hc' & Hk' & _).
    assert (userHeaders s' = userHeaders st) as Hh
        by (enter_shapes; rewrite Hk'; reflexivity).
    assert (Js.truthy_str (localApiKey s') = true) as Hkey' by (rewrite Hk'; exact Hkey).
    assert (Forall (fun t =>
                      Js.all_whitespace (typed t) = false /\
                      postV1ReplicasChatCompletions (answering t) (userHeaders s') id
                        API_VERSION
                        {| cb_content := typed t; source := "web";
                           skip_chat_history := false |}
                      = Resolved (replied t)) rest) as Hrest'
        by (rewrite Hh; exact Hrest).
    specialize (IH s' id Hkey' Hc' Hid Hrest'). cbv zeta in IH.
    destruct IH as (Ho & Hms & Hrs & Hcs & Hks).
    cbn [map typed answering]. rewrite converse_cons, Hrun.
    destruct (converse (map (fun t => (typed t, answering t)) rest) s')
      as [[o s''] t''].
    cbn [outcome_of state_of trace_of fst snd] in *.
    split; [exact Ho|]. split; [|split; [|split]].
    + rewrite Hms, Hm, <- app_assoc. reflexivity.
    + rewrite requests_app, Hreq, Hrs. cbn [app]. f_equal.
      apply map_ext. intros t0. enter_shapes. rewrite Hk'. reflexivity.
    + exact Hcs.
    + rewrite Hks. exact Hk'.
Qed.

(** X15. Where the Provisioner gives up.  When the user can be neither
    fetched nor created, no agent call is made; when the agents cannot be
    listed, no agent is created; when the agent cannot be created, nothing
    is cached.  In each case the one fixed error is thrown and the state is
    left as it was. *)
Theorem provisioner_aborts remote closure client s :
  cached closure = false ->
  let run := initializeSession remote closure client s in
  (forall e1 e2,
      getV1Users remote (orgHeaders closure) SAMPLE_USER_ID = Rejected e1 ->
      postV1Users remote (orgHeaders closure) API_VERSION sampleUser = Rejected e2 ->
      outcome_of run = Rejected (ErrorInstance init_failed) /\
      state_of run = s /\
      requests (trace_of run)
      = [GetV1Users (orgHeaders closure) SAMPLE_USER_ID;
         PostV1Users (orgHeaders closure) API_VERSION sampleUser]) /\
  (user_ready remote closure ->
   forall e,
     getV1Replicas remote (userHeaders closure) = Rejected e ->
     outcome_of run = Rejected (ErrorInstance init_failed) /\
     state_of run = s /\
     requests (trace_of run)
     = user_step remote closure ++ [GetV1Replicas (userHeaders closure)]) /\
  (user_ready remote closure ->
   forall items e,
     getV1Replicas remote (userHeaders closure) = Resolved items ->
     demo_agent items = None ->
     postV1Replicas remote (userHeaders closure) API_VERSION sampleReplica
     = Rejected e ->
     outcome_of run = Rejected (ErrorInstance init_failed) /\
     state_of run = s).
Proof.
  intros Hc run. subst run.
  rewrite (initializeSession_uncached SAMPLE_USER_ID SAMPLE_REPLICA_SLUG
             API_VERSION remote closure client s Hc).
  enter_shapes.
  split; [|split].
  - intros e1 e2 H1 H2. unfold_handlers. rewrite H1. cbv beta iota zeta delta [negb].
    rewrite H2. repeat split.
  - intros Hready e Hlist. unfold_handlers.
    destruct (getV1Users remote _ SAMPLE_USER_ID) as [[]|e0];
      cbv beta iota zeta delta [negb].
    + rewrite Hlist. repeat split.
    + destruct Hready as [Hready|Hready]; [discriminate|]. rewrite Hready.
      cbv beta iota zeta. rewrite Hlist. repeat split.
  - intros Hready items e Hlist Hfind Hcreate. unfold_handlers.
    destruct (getV1Users remote _ SAMPLE_USER_ID) as [[]|e0];
      cbv beta iota zeta delta [negb].
    + rewrite Hlist. cbv beta iota zeta.
      destruct items as [l|]; cbv beta iota zeta in Hfind |- *;
        [rewrite Hfind; cbv beta iota zeta|]; rewrite Hcreate; repeat split.
    + destruct Hready as [Hready|Hready]; [discriminate|]. rewrite Hready.
      cbv beta iota zeta. rewrite Hlist. cbv beta iota zeta.
      destruct items as [l|]; cbv beta iota zeta in Hfind |- *;
        [rewrite Hfind; cbv beta iota zeta|]; rewrite Hcreate; repeat split.
Qed.

End More.

(** X16. Mounting settles at once: the effect on the [apiKey] prop leaves
    the initial state as it is; the configuration panel starts open exactly
    when no credential came with the props; nothing is cached. *)
Theorem mount_effect_settles (apiKey : option string) :
  state_of (apiKeyEffect apiKey (initialState apiKey)) = initialState apiKey /\
  showConfig (initialState apiKey)
  = negb (Js.truthy_str (localApiKey (initialState apiKey))) /\
  cached (initialState apiKey) = false.
Proof.
  destruct apiKey as [k|]; [|repeat split].
  unfold apiKeyEffect, initialState.
  destruct (Js.truthy_str k) eqn:Hk; cbn; rewrite ?Hk; repeat split.
Qed.


(** ** The further theorems at work on the scenarios *)

Lemma handleKeyDown_plain_enter_only_witness :
  render (fun closure => Extra.handleKeyDown Scenario.healthy closure Extra.shift_enter)
         Scenario.hello
  = (Resolved false, Scenario.hello, []) /\
  messages (state_of
              (render (fun closure =>
                         Extra.handleKeyDown Scenario.healthy closure Extra.enter)
                      Scenario.hello))
  = messages (state_of (render (Run.handleSubmit Scenario.healthy) Scenario.hello)).
Proof.
  destruct (handleKeyDown_plain_enter_only
              Scenario.USER_ID Scenario.SLUG Scenario.VERSION
              Scenario.healthy Scenario.hello Extra.shift_enter) as [_ Hshift].
  destruct (handleKeyDown_plain_enter_only
              Scenario.USER_ID Scenario.SLUG Scenario.VERSION
              Scenario.healthy Scenario.hello Extra.enter) as [Henter _].
  split.
  - apply Hshift. right. reflexivity.
  - unfold Extra.handleKeyDown. rewrite Henter; [reflexivity | split; reflexivity].
Defined.

Lemma submission_frame_witness :
  accepted Scenario.hello /\
  ~ accepted Run.no_credential /\
  inputValue (state_of (render (Run.handleSubmit Scenario.healthy) Scenario.hello)) = "" /\
  inputValue (state_of (render (Run.handleSubmit Scenario.healthy) Run.no_credential))
  = "Hello".
Proof.
  assert (~ accepted Run.no_credential) as Hno by (intros [_ H]; discriminate H).
  split; [exact accepted_hello|]. split; [exact Hno|]. split.
  - apply (submission_frame Scenario.USER_ID Scenario.SLUG Scenario.VERSION
             Scenario.healthy Scenario.hello). exact accepted_hello.
  - apply (submission_frame Scenario.USER_ID Scenario.SLUG Scenario.VERSION
             Scenario.healthy Run.no_credential). exact Hno.
Defined.

Lemma cache_after_submission_witness :
  accepted Scenario.hello /\
  replicaUuid (state_of (render (Run.handleSubmit
                                   (Scenario.failing_completion (Payload Run.status_only)))
                                Scenario.hello))
  = Some "r-1" /\
  cached (state_of (render (Run.handleSubmit Scenario.unauthorized) Scenario.hello))
  = false.
Proof.
  split; [exact accepted_hello|]. split.
  - apply (proj1 (cache_after_submission
                    Scenario.USER_ID Scenario.SLUG Scenario.VERSION
                    (Scenario.failing_completion (Payload Run.status_only))
                    Scenario.hello accepted_hello)). reflexivity.
  - apply (proj2 (cache_after_submission
                    Scenario.USER_ID Scenario.SLUG Scenario.VERSION
                    Scenario.unauthorized Scenario.hello accepted_hello)
             (ErrorInstance init_failed)). reflexivity.
Defined.

Lemma cached_exchange_single_call_witness :
  accepted Run.provisioned /\
  replicaUuid Run.provisioned = Some "r-1" /\
  "r-1" <> "" /\
  requests (trace_of (render (Run.handleSubmit Scenario.unauthorized) Run.provisioned))
  = [Extra.completion_for Run.provisioned "r-1" "Hello"].
Proof.
  assert (accepted Run.provisioned) as Hacc by (split; reflexivity).
  split; [exact Hacc|]. split; [reflexivity|]. split; [discriminate|].
  apply (cached_exchange_single_call
           Scenario.USER_ID Scenario.SLUG Scenario.VERSION
           Scenario.unauthorized Run.provisioned "r-1" Hacc eq_refl).
  discriminate.
Defined.

Lemma failure_sets_error_witness :
  accepted Scenario.hello /\
  error (state_of (render (Run.handleSubmit Scenario.unauthorized) Scenario.hello))
  = Js.Str init_failed /\
  Js.truthy (error (state_of (render (Run.handleSubmit
                                        (Scenario.failing_completion
                                           (Payload Run.status_only)))
                                     Scenario.hello))) = true.
Proof.
  split; [exact accepted_hello|]. split.
  - apply (proj1 (failure_sets_error
                    Scenario.USER_ID Scenario.SLUG Scenario.VERSION
                    Scenario.unauthorized Scenario.hello accepted_hello)
             (ErrorInstance init_failed)). reflexivity.
  - apply (proj1 (proj2 (failure_sets_error
                           Scenario.USER_ID Scenario.SLUG Scenario.VERSION
                           (Scenario.failing_completion (Payload Run.status_only))
                           Scenario.hello accepted_hello))
             "r-1" Run.status_only); reflexivity.
Defined.

Lemma error_null_iff_success_witness :
  accepted Scenario.hello /\
  error (state_of (render (Run.handleSubmit Scenario.healthy) Scenario.hello)) = Js.Null.
Proof.
  split; [exact accepted_hello|].
  apply (error_null_iff_success
           Scenario.USER_ID Scenario.SLUG Scenario.VERSION
           Scenario.healthy Scenario.hello accepted_hello).
  exists "r-1", "Hi there". split; reflexivity.
Defined.

Lemma controls_after_submission_witness :
  accepted Scenario.hello /\
  submitDisabled Scenario.hello = false /\
  submitDisabled (state_of (render (Run.handleSubmit Scenario.healthy) Scenario.hello))
  = true /\
  textareaDisabled (state_of (render (Run.handleSubmit Scenario.healthy) Scenario.hello))
  = false.
Proof.
  split; [exact accepted_hello|]. split; [reflexivity|].
  apply (controls_after_submission
           Scenario.USER_ID Scenario.SLUG Scenario.VERSION
           Scenario.healthy Scenario.hello accepted_hello).
Defined.

Lemma field_change_reprovisions_witness :
  let st' := state_of (handleApiKeyChange "other-secret" Run.provisioned) in
  accepted st' /\
  replicaUuid Run.provisioned = Some "r-1" /\
  localApiKey st' = "other-secret" /\
  hd_error (requests (trace_of (render (Run.handleSubmit Scenario.healthy) st')))
  = Some (GetV1Users {| X_ORGANIZATION_SECRET := "other-secret"; X_USER_ID := None |}
                     Scenario.USER_ID).
Proof.
  cbv zeta.
  assert (accepted (state_of (handleApiKeyChange "other-secret" Run.provisioned)))
    as Hacc by (split; reflexivity).
  split; [exact Hacc|]. split; [reflexivity|].
  apply (field_change_reprovisions
           Scenario.USER_ID Scenario.SLUG Scenario.VERSION
           Scenario.healthy Run.provisioned "other-secret" Hacc).
Defined.

Lemma conversation_witness :
  let run :=
    Extra.converse [("Hello", Extra.replying "Hi there");
                    ("Hello", Extra.replying "Hello again")] Run.provisioned in
  outcome_of run = Resolved tt /\
  messages (state_of run)
  = [ {| role := user; content := "Hello"; name := None |};
      {| role := assistant; content := "Hi there"; name := None |};
      {| role := user; content := "Hello"; name := None |};
      {| role := assistant; content := "Hello again"; name := None |} ] /\
  requests (trace_of run)
  = [Extra.completion_for Run.provisioned "r-1" "Hello";
     Extra.completion_for Run.provisioned "r-1" "Hello"] /\
  replicaUuid (state_of run) = Some "r-1" /\
  localApiKey (state_of run) = "secret".
Proof.
  cbv zeta.
  apply (conversation
           Scenario.USER_ID Scenario.SLUG Scenario.VERSION
           Extra.greetings Run.provisioned "r-1").
  - reflexivity.
  - reflexivity.
  - discriminate.
  - repeat constructor.
Defined.

Lemma provisioner_aborts_witness :
  let run :=
    Run.initializeSession Scenario.unauthorized Scenario.hello
      (Run.userClient Scenario.unauthorized Scenario.hello) Scenario.hello in
  cached Scenario.hello = false /\
  outcome_of run = Rejected (ErrorInstance init_failed) /\
  state_of run = Scenario.hello /\
  requests (trace_of run)
  = [GetV1Users (orgHeaders Scenario.hello) Scenario.USER_ID;
     PostV1Users (orgHeaders Scenario.hello) Scenario.VERSION
       (sampleUser Scenario.USER_ID)].
Proof.
  cbv zeta. split; [reflexivity|].
  apply (proj1 (provisioner_aborts
                  Scenario.USER_ID Scenario.SLUG Scenario.VERSION
                  Scenario.unauthorized Scenario.hello
                  (Run.userClient Scenario.unauthorized Scenario.hello)
                  Scenario.hello eq_refl)
           (Payload (Js.Obj [("error", Js.Str "Unauthorized")]))
           (Payload (Js.Obj [("error", Js.Str "Unauthorized")])));
    reflexivity.
Defined.

Lemma exchange_order_witness :
  accepted Scenario.hello /\
  cached Scenario.hello = false /\
  outcome_of (Run.initializeSession Scenario.healthy Scenario.hello
                (Run.userClient Scenario.healthy Scenario.hello) Scenario.hello)
  = Resolved "r-1" /\
  exists provisioning completion,
    trace_of (render (Run.handleSubmit Scenario.healthy) Scenario.hello)
    = provisioning ++ completion /\
    Forall (provisioning_at (submitted Scenario.hello)) provisioning /\
    Forall (awaiting_completion Scenario.hello) completion /\
    (exists rest,
        provisioning
        = Net (GetV1Users (orgHeaders Scenario.hello) Scenario.USER_ID)
              (submitted Scenario.hello) :: rest) /\
    (exists pending rest,
        completion
        = Net (PostV1ReplicasChatCompletions (Run.userHeaders Scenario.hello) "r-1"
                 Scenario.VERSION (completionBody Scenario.hello)) pending :: rest /\
        messages pending
        = [ {| role := user; content := "Hello"; name := None |};
            {| role := assistant; content := ""; name := None |} ] /\
        isLoading pending = true /\
        requests rest = []).
Proof.
  split; [exact accepted_hello|]. split; [reflexivity|]. split; [reflexivity|].
  destruct (exchange_order
              Scenario.USER_ID Scenario.SLUG Scenario.VERSION
              Scenario.healthy Scenario.hello accepted_hello)
    as (provisioning & completion & Htrace & Hprov & Hcomp & _ & Hfirst & _ & Hcall & _).
  exists provisioning, completion.
  split; [exact Htrace|]. split; [exact Hprov|]. split; [exact Hcomp|].
  split; [exact (Hfirst eq_refl)|]. exact (Hcall "r-1" eq_refl).
Defined.

(** ** More on the extraction of the error message *)

(** X17. The forms of the [error] field.  A thrown object whose [error] is
    a non-empty string displays that string; one whose [error] is any other
    truthy value without a truthy [message] of its own displays that value
    as JSON.  In both cases a [message] or [response] field next to it is
    ignored. *)
Theorem errorMessage_error_field (errorObj : Js.value) :
  (forall text,
      Js.get errorObj "error" = Js.Str text ->
      text <> "" ->
      errorMessage (Payload errorObj) = Js.Str text) /\
  (Js.truthy (Js.get errorObj "error") = true ->
   Js.is_string (Js.get errorObj "error") = false ->
   Js.truthy (Js.get (Js.get errorObj "error") "message") = false ->
   errorMessage (Payload errorObj)
   = Js.Str (Js.stringify (Js.get errorObj "error"))).
Proof.
  split.
  - intros text He Hne.
    destruct errorObj as [| | | | |fields|]; try discriminate He.
    unfold errorMessage. cbn [Js.is_object]. rewrite get_opt_get, He.
    cbn [Js.get]. change (Js.truthy Js.Undefined) with false. cbv iota.
    rewrite (nonempty_truthy text Hne). reflexivity.
  - intros Ht Hs Hm.
    destruct errorObj as [| | | | |fields|]; try discriminate Ht.
    unfold errorMessage. cbn [Js.is_object]. rewrite get_opt_get, Hm, Ht, Hs.
    reflexivity.
Qed.

(** X18. Inside [response.data].  When the thrown object has no truthy
    [error] and no truthy [message] of its own, a truthy [response.data] is
    searched in this order: its [error.message], then its [message], then,
    when it is a string, the data itself. *)
Theorem errorMessage_response_data (errorObj respData : Js.value) :
  Js.truthy (Js.get errorObj "error") = false ->
  Js.truthy (Js.get errorObj "message") = false ->
  Js.get (Js.get errorObj "response") "data" = respData ->
  Js.truthy respData = true ->
  (forall text,
      Js.get (Js.get respData "error") "message" = Js.Str text ->
      text <> "" ->
      errorMessage (Payload errorObj) = Js.Str text) /\
  (forall text,
      Js.truthy (Js.get (Js.get respData "error") "message") = false ->
      Js.get respData "message" = Js.Str text ->
      text <> "" ->
      errorMessage (Payload errorObj) = Js.Str text) /\
  (forall text,
      respData = Js.Str text ->
      errorMessage (Payload errorObj) = Js.Str text).
Proof.
  intros He Hm Hd Ht.
  assert (Js.is_object errorObj = true) as Hobj.
  { destruct errorObj; try reflexivity; cbn in Hd; subst respData; discriminate Ht. }
  assert (forall v : Js.value,
             errorMessage (Payload errorObj)
             = (if Js.truthy (Js.get (Js.get respData "error") "message")
                then Js.get (Js.get respData "error") "message"
                else if Js.truthy (Js.get respData "message")
                     then Js.get respData "message"
                     else if Js.is_string respData then respData
                          else Js.Str ("API Error ("
                                         ^^ Js.to_string
                                              (Js.get (Js.get errorObj "response") "status")
                                         ^^ "): " ^^ Js.stringify respData))) as Hbranch.
  { intros _. unfold errorMessage.
    rewrite Hobj, (falsy_get_opt _ "message" He), He, Hm.
    rewrite !get_opt_get, Hd, Ht. reflexivity. }
  specialize (Hbranch Js.Null). rewrite Hbranch.
  split; [|split].
  - intros text Hx Hne. rewrite Hx, (nonempty_truthy text Hne). reflexivity.
  - intros text Hx Hy Hne. rewrite Hx, Hy, (nonempty_truthy text Hne). reflexivity.
  - intros text ->. reflexivity.
Qed.

Lemma errorMessage_error_field_witness :
  errorMessage (Payload (Js.Obj [("error", Js.Str "Unauthorized");
                                 ("message", Js.Str "ignored")]))
  = Js.Str "Unauthorized" /\
  errorMessage (Payload (Js.Obj [("error", Js.Obj [("code", Js.Num 7)])]))
  = Js.Str (Js.stringify (Js.Obj [("code", Js.Num 7)])).
Proof.
  split.
  - apply (proj1 (errorMessage_error_field
                    (Js.Obj [("error", Js.Str "Unauthorized");
                             ("message", Js.Str "ignored")])));
      [reflexivity | discriminate].
  - apply (proj2 (errorMessage_error_field
                    (Js.Obj [("error", Js.Obj [("code", Js.Num 7)])])));
      reflexivity.
Defined.

Lemma errorMessage_response_data_witness :
  errorMessage (Payload Extra.internal_error) = Js.Str "internal error" /\
  errorMessage (Payload Extra.bad_gateway) = Js.Str "Bad Gateway".
Proof.
  split.
  - apply (proj1 (proj2 (errorMessage_response_data
                           Extra.internal_error
                           (Js.Obj [("message", Js.Str "internal error")])
                           eq_refl eq_refl eq_refl eq_refl)));
      [reflexivity | reflexivity | discriminate].
  - apply (proj2 (proj2 (errorMessage_response_data
                           Extra.bad_gateway (Js.Str "Bad Gateway")
                           eq_refl eq_refl eq_refl eq_refl))).
    reflexivity.
Defined.

(** ** What a submission sends *)

Section Sent.

Context (SAMPLE_USER_ID SAMPLE_REPLICA_SLUG API_VERSION : string).

Local Abbreviation initializeSession :=
  (initializeSession SAMPLE_USER_ID SAMPLE_REPLICA_SLUG API_VERSION).
Local Abbreviation handleSubmit :=
  (handleSubmit SAMPLE_USER_ID SAMPLE_REPLICA_SLUG API_VERSION).
Local Abbreviation userClient := (userClient SAMPLE_USER_ID).

(** The Provisioner reads the credential and the cache of its closure and
    nothing else. *)
Lemma initializeSession_closure remote c c' client client' s :
  localApiKey c = localApiKey c' ->
  replicaUuid c = replicaUuid c' ->
  initializeSession remote c client s = initializeSession remote c' client' s.
Proof.
  destruct c, c'. cbn [localApiKey replicaUuid]. intros -> ->. reflexivity.
Qed.

(** X19. The network calls of a submission are decided by the text typed,
    the credential and the cached agent alone: two states that agree on
    these three issue the same calls, whatever their transcripts, error
    banners and flags.  In particular the transcript is never sent. *)
Theorem requests_decided_by remote st st' :
  inputValue st = inputValue st' ->
  localApiKey st = localApiKey st' ->
  replicaUuid st = replicaUuid st' ->
  requests (trace_of (render (handleSubmit remote) st))
  = requests (trace_of (render (handleSubmit remote) st')).
Proof.
  intros Hi Hk Hc.
  destruct (handleSubmit_guards SAMPLE_USER_ID SAMPLE_REPLICA_SLUG API_VERSION remote st)
    as [[Hb ->] | [(Hb & Hno & ->) | Hacc]].
  - rewrite Hi in Hb.
    rewrite (handleSubmit_blank SAMPLE_USER_ID SAMPLE_REPLICA_SLUG API_VERSION
               remote st' Hb). reflexivity.
  - rewrite Hi in Hb. rewrite Hk in Hno.
    rewrite (handleSubmit_no_key SAMPLE_USER_ID SAMPLE_REPLICA_SLUG API_VERSION
               remote st' Hb Hno). reflexivity.
  - assert (accepted st') as Hacc'
        by (destruct Hacc as [H1 H2]; rewrite Hi in H1; rewrite Hk in H2; split; assumption).
    rewrite (handleSubmit_accepted SAMPLE_USER_ID SAMPLE_REPLICA_SLUG API_VERSION
               remote st Hacc).
    rewrite (handleSubmit_accepted SAMPLE_USER_ID SAMPLE_REPLICA_SLUG API_VERSION
               remote st' Hacc').
    rewrite <- (initializeSession_closure remote st st'
                  (userClient remote st) (userClient remote st') (submitted st') Hk Hc).
    destruct (initializeSession_pending SAMPLE_USER_ID SAMPLE_REPLICA_SLUG API_VERSION
                remote st (userClient remote st) (submitted st) (submitted st'))
      as [Ho Hr].
    assert (userHeaders SAMPLE_USER_ID st' = userHeaders SAMPLE_USER_ID st) as Hh
        by (enter_shapes; rewrite Hk; reflexivity).
    assert (completionBody st' = completionBody st) as Hb
        by (unfold completionBody; rewrite Hi; reflexivity).
    rewrite Hh, Hb.
    destruct (initializeSession remote st _ (submitted st)) as [[o s2] t1].
    destruct (initializeSession remote st _ (submitted st')) as [[o' s2'] t1'].
    cbn [outcome_of trace_of fst snd] in Ho, Hr. subst o'.
    destruct o as [id|e]; cbv zeta.
    + destruct (postV1ReplicasChatCompletions remote _ id API_VERSION _);
        cbn [trace_of snd]; rewrite !requests_app, Hr; reflexivity.
    + cbn [trace_of snd]. rewrite !requests_app, Hr. reflexivity.
Qed.

End Sent.

Lemma requests_decided_by_witness :
  inputValue Scenario.hello
  = inputValue (with_isLoading true (with_messages [placeholder] Scenario.hello)) /\
  requests (trace_of (render (Run.handleSubmit Scenario.fresh) Scenario.hello))
  = requests (trace_of (render (Run.handleSubmit Scenario.fresh)
                               (with_isLoading true
                                  (with_messages [placeholder] Scenario.hello)))).
Proof.
  split; [reflexivity|].
  apply (requests_decided_by
           Scenario.USER_ID Scenario.SLUG Scenario.VERSION Scenario.fresh
           Scenario.hello (with_isLoading true (with_messages [placeholder] Scenario.hello)));
    reflexivity.
Defined.
